(** * The ScoutProf stack sampler: ext/stacks/stacks.c

    A shallow embedding of the branch of stacks.c that is compiled when the
    Ruby headers define RUBY_INTERNAL_EVENT_NEWOBJ and the target is not
    Windows, and the properties of the sampler proved over it.

    One OS thread is modelled: its thread-local variables ([thread_vars]), the
    two process-wide flags ([global_vars]), and one invocation at a time of a
    function of the file.  What the Ruby runtime and the operating system
    answer during an invocation is an argument of the model ([runtime]); what
    the C compiler and the C library fix for a target is another ([build]). *)

From Stdlib Require Import ZArith NArith List Bool Lia.
Import ListNotations.
Local Open Scope Z_scope.

(** ** Ruby values *)

(** A [VALUE] is a machine word: a special constant, a tagged small integer,
    or the address of a heap object.  Comparing two of them, as the C code
    does for the thread handles, compares the words. *)
Inductive VALUE : Type :=
| Qfalse
| Qnil
| Qtrue
| Fixnum (n : Z)
| Object (addr : Z).

Definition VALUE_eqb (a b : VALUE) : bool :=
  match a, b with
  | Qfalse, Qfalse | Qnil, Qnil | Qtrue, Qtrue => true
  | Fixnum n, Fixnum m => n =? m
  | Object x, Object y => x =? y
  | _, _ => false
  end.

(** The type tags that [TYPE] distinguishes, as far as this file looks. *)
Inductive ruby_type : Type :=
| T_NONE | T_OBJECT | T_STRING | T_ARRAY | T_DATA | T_IMEMO | T_NODE
| T_NIL | T_TRUE | T_FALSE | T_FIXNUM.

Definition ruby_type_eqb (a b : ruby_type) : bool :=
  match a, b with
  | T_NONE, T_NONE | T_OBJECT, T_OBJECT | T_STRING, T_STRING
  | T_ARRAY, T_ARRAY | T_DATA, T_DATA | T_IMEMO, T_IMEMO | T_NODE, T_NODE
  | T_NIL, T_NIL | T_TRUE, T_TRUE | T_FALSE, T_FALSE
  | T_FIXNUM, T_FIXNUM => true
  | _, _ => false
  end.

Definition INT2NUM (i : Z) : VALUE := Fixnum i.
Definition INT2FIX (i : Z) : VALUE := Fixnum i.

(** ** The target: C types and conditional compilation *)

(** [uint_fast16_t] is the type of the locals [cur_traces_num],
    [start_frame_index], [start_trace_index] and [i].  The C library chooses
    it: a 16-bit type (macOS), [unsigned int] (musl, FreeBSD, 32-bit glibc) or
    [unsigned long] (64-bit glibc).  The choice decides how [int] and
    [uint_fast16_t] operands are subtracted: a 16-bit operand is promoted to
    [int] and the difference is signed; an operand of the rank of [int] or
    above makes the difference unsigned, modulo 2^32 or 2^(width of long). *)
Inductive fast16_rank : Type := Fast16_short | Fast16_int | Fast16_long.

Inductive long_size : Type := Long32 | Long64.

Record build : Type := {
  linux : bool;                     (* __linux__ is defined *)
  uint_fast16_t : fast16_rank;
  long : long_size;
  VALID_RUBY_FRAME : ruby_type      (* T_IMEMO when Ruby defines it, else T_DATA *)
}.

Definition long_bits (b : build) : Z :=
  match long b with Long32 => 32 | Long64 => 64 end.

(** A mathematical integer as the [int] it becomes (two's complement, 32 bits). *)
Definition to_int (z : Z) : Z := (z + 2 ^ 31) mod 2 ^ 32 - 2 ^ 31.

(** ... and as the [long] it becomes. *)
Definition to_long (b : build) (z : Z) : Z :=
  (z + 2 ^ (long_bits b - 1)) mod 2 ^ long_bits b - 2 ^ (long_bits b - 1).

(** The C value of an additive expression over [int] and [uint_fast16_t]
    operands whose mathematical value is [z]. *)
Definition fast16_arith (b : build) (z : Z) : Z :=
  match uint_fast16_t b with
  | Fast16_short => to_int z
  | Fast16_int => z mod 2 ^ 32
  | Fast16_long => z mod 2 ^ long_bits b
  end.

Definition BUF_SIZE : Z := 512.
Definition MAX_TRACES : Z := 2000.

(** ** Atomics *)

(** Modelled from the spec: scout_atomics.h is not among the sources.  The
    spec has every per-thread field atomic, the flags [bool], the indices
    [u16] and the counters [u32]; the macros are taken as sequentially
    consistent loads, stores and fetch-and-add on those types.  A store
    converts its operand to the unsigned type of the variable, an addition
    wraps around in it. *)
Definition ATOMIC_LOAD {A : Type} (var : A) : A := var.
Definition ATOMIC_STORE_BOOL (value : bool) : bool := value.
Definition ATOMIC_STORE_INT16 (value : Z) : N := Z.to_N (value mod 2 ^ 16).
Definition ATOMIC_STORE_INT32 (value : Z) : N := Z.to_N (value mod 2 ^ 32).
Definition ATOMIC_ADD (bits : Z) (var : N) (value : Z) : N :=
  Z.to_N ((Z.of_N var + value) mod 2 ^ bits).

(** ** Per-thread and global variables *)

(** [struct c_trace]: the arrays are read at any index the code asks for, so
    they are functions of the index. *)
Record c_trace : Type := {
  num_tracelines : Z;
  lines_buf : Z -> Z;
  frames_buf : Z -> VALUE
}.

(** The lines the file writes to the diagnostic stream, by format string. *)
Inductive diag : Type :=
| Pthread_atfork_failed (res : Z)
| Time_create_failed (errno : Z)
| Not_profiled_thread
| Non_data_frame (ty : ruby_type)
| Block_mask_failed (errno : Z)
| Timer_set_failed_in_start_sampling (errno : Z)
| UNBlock_mask_failed (errno : Z)
| Timer_set_failed (errno : Z).

(** The [__thread] variables of the file, with the state they stand for
    outside it: whether [_gc_hook] is registered with the collector, whether
    the timer behind [_timerid] is armed, and what the thread has written to
    the diagnostic stream.  [_traces] is given at every index, but the
    source allocates [MAX_TRACES] slots: a read or a write at an index from
    [MAX_TRACES] on is outside the allocation, and the statements about
    reads of the buffer carry the bound on the number of traces. *)
Record thread_vars : Type := {
  _traces : N -> c_trace;
  _thread_registered : bool;
  _ok_to_sample : bool;
  _in_signal_handler : bool;
  _start_frame_index : N;
  _start_trace_index : N;
  _cur_traces_num : N;
  _skipped_in_gc : N;
  _skipped_in_signal_handler : N;
  _skipped_in_job_registered : N;
  _skipped_in_not_running : N;
  _ruby_thread : VALUE;
  _job_registered : bool;
  gc_registered : bool;
  timer_armed : bool;
  stderr : list diag
}.

Definition set_traces (v : N -> c_trace) (s : thread_vars) : thread_vars :=
  {| _traces := v; _thread_registered := _thread_registered s;
     _ok_to_sample := _ok_to_sample s; _in_signal_handler := _in_signal_handler s;
     _start_frame_index := _start_frame_index s;
     _start_trace_index := _start_trace_index s; _cur_traces_num := _cur_traces_num s;
     _skipped_in_gc := _skipped_in_gc s;
     _skipped_in_signal_handler := _skipped_in_signal_handler s;
     _skipped_in_job_registered := _skipped_in_job_registered s;
     _skipped_in_not_running := _skipped_in_not_running s; _ruby_thread := _ruby_thread s;
     _job_registered := _job_registered s; gc_registered := gc_registered s;
     timer_armed := timer_armed s; stderr := stderr s |}.

Definition set_thread_registered (v : bool) (s : thread_vars) : thread_vars :=
  {| _traces := _traces s; _thread_registered := v; _ok_to_sample := _ok_to_sample s;
     _in_signal_handler := _in_signal_handler s;
     _start_frame_index := _start_frame_index s;
     _start_trace_index := _start_trace_index s; _cur_traces_num := _cur_traces_num s;
     _skipped_in_gc := _skipped_in_gc s;
     _skipped_in_signal_handler := _skipped_in_signal_handler s;
     _skipped_in_job_registered := _skipped_in_job_registered s;
     _skipped_in_not_running := _skipped_in_not_running s; _ruby_thread := _ruby_thread s;
     _job_registered := _job_registered s; gc_registered := gc_registered s;
     timer_armed := timer_armed s; stderr := stderr s |}.

Definition set_ok_to_sample (v : bool) (s : thread_vars) : thread_vars :=
  {| _traces := _traces s; _thread_registered := _thread_registered s; _ok_to_sample := v;
     _in_signal_handler := _in_signal_handler s;
     _start_frame_index := _start_frame_index s;
     _start_trace_index := _start_trace_index s; _cur_traces_num := _cur_traces_num s;
     _skipped_in_gc := _skipped_in_gc s;
     _skipped_in_signal_handler := _skipped_in_signal_handler s;
     _skipped_in_job_registered := _skipped_in_job_registered s;
     _skipped_in_not_running := _skipped_in_not_running s; _ruby_thread := _ruby_thread s;
     _job_registered := _job_registered s; gc_registered := gc_registered s;
     timer_armed := timer_armed s; stderr := stderr s |}.

Definition set_in_signal_handler (v : bool) (s : thread_vars) : thread_vars :=
  {| _traces := _traces s; _thread_registered := _thread_registered s;
     _ok_to_sample := _ok_to_sample s; _in_signal_handler := v;
     _start_frame_index := _start_frame_index s;
     _start_trace_index := _start_trace_index s; _cur_traces_num := _cur_traces_num s;
     _skipped_in_gc := _skipped_in_gc s;
     _skipped_in_signal_handler := _skipped_in_signal_handler s;
     _skipped_in_job_registered := _skipped_in_job_registered s;
     _skipped_in_not_running := _skipped_in_not_running s; _ruby_thread := _ruby_thread s;
     _job_registered := _job_registered s; gc_registered := gc_registered s;
     timer_armed := timer_armed s; stderr := stderr s |}.

Definition set_start_frame_index (v : N) (s : thread_vars) : thread_vars :=
  {| _traces := _traces s; _thread_registered := _thread_registered s;
     _ok_to_sample := _ok_to_sample s; _in_signal_handler := _in_signal_handler s;
     _start_frame_index := v; _start_trace_index := _start_trace_index s;
     _cur_traces_num := _cur_traces_num s; _skipped_in_gc := _skipped_in_gc s;
     _skipped_in_signal_handler := _skipped_in_signal_handler s;
     _skipped_in_job_registered := _skipped_in_job_registered s;
     _skipped_in_not_running := _skipped_in_not_running s; _ruby_thread := _ruby_thread s;
     _job_registered := _job_registered s; gc_registered := gc_registered s;
     timer_armed := timer_armed s; stderr := stderr s |}.

Definition set_start_trace_index (v : N) (s : thread_vars) : thread_vars :=
  {| _traces := _traces s; _thread_registered := _thread_registered s;
     _ok_to_sample := _ok_to_sample s; _in_signal_handler := _in_signal_handler s;
     _start_frame_index := _start_frame_index s; _start_trace_index := v;
     _cur_traces_num := _cur_traces_num s; _skipped_in_gc := _skipped_in_gc s;
     _skipped_in_signal_handler := _skipped_in_signal_handler s;
     _skipped_in_job_registered := _skipped_in_job_registered s;
     _skipped_in_not_running := _skipped_in_not_running s; _ruby_thread := _ruby_thread s;
     _job_registered := _job_registered s; gc_registered := gc_registered s;
     timer_armed := timer_armed s; stderr := stderr s |}.

Definition set_cur_traces_num (v : N) (s : thread_vars) : thread_vars :=
  {| _traces := _traces s; _thread_registered := _thread_registered s;
     _ok_to_sample := _ok_to_sample s; _in_signal_handler := _in_signal_handler s;
     _start_frame_index := _start_frame_index s;
     _start_trace_index := _start_trace_index s; _cur_traces_num := v;
     _skipped_in_gc := _skipped_in_gc s;
     _skipped_in_signal_handler := _skipped_in_signal_handler s;
     _skipped_in_job_registered := _skipped_in_job_registered s;
     _skipped_in_not_running := _skipped_in_not_running s; _ruby_thread := _ruby_thread s;
     _job_registered := _job_registered s; gc_registered := gc_registered s;
     timer_armed := timer_armed s; stderr := stderr s |}.

Definition set_skipped_in_gc (v : N) (s : thread_vars) : thread_vars :=
  {| _traces := _traces s; _thread_registered := _thread_registered s;
     _ok_to_sample := _ok_to_sample s; _in_signal_handler := _in_signal_handler s;
     _start_frame_index := _start_frame_index s;
     _start_trace_index := _start_trace_index s; _cur_traces_num := _cur_traces_num s;
     _skipped_in_gc := v; _skipped_in_signal_handler := _skipped_in_signal_handler s;
     _skipped_in_job_registered := _skipped_in_job_registered s;
     _skipped_in_not_running := _skipped_in_not_running s; _ruby_thread := _ruby_thread s;
     _job_registered := _job_registered s; gc_registered := gc_registered s;
     timer_armed := timer_armed s; stderr := stderr s |}.

Definition set_skipped_in_signal_handler (v : N) (s : thread_vars) : thread_vars :=
  {| _traces := _traces s; _thread_registered := _thread_registered s;
     _ok_to_sample := _ok_to_sample s; _in_signal_handler := _in_signal_handler s;
     _start_frame_index := _start_frame_index s;
     _start_trace_index := _start_trace_index s; _cur_traces_num := _cur_traces_num s;
     _skipped_in_gc := _skipped_in_gc s; _skipped_in_signal_handler := v;
     _skipped_in_job_registered := _skipped_in_job_registered s;
     _skipped_in_not_running := _skipped_in_not_running s; _ruby_thread := _ruby_thread s;
     _job_registered := _job_registered s; gc_registered := gc_registered s;
     timer_armed := timer_armed s; stderr := stderr s |}.

Definition set_skipped_in_job_registered (v : N) (s : thread_vars) : thread_vars :=
  {| _traces := _traces s; _thread_registered := _thread_registered s;
     _ok_to_sample := _ok_to_sample s; _in_signal_handler := _in_signal_handler s;
     _start_frame_index := _start_frame_index s;
     _start_trace_index := _start_trace_index s; _cur_traces_num := _cur_traces_num s;
     _skipped_in_gc := _skipped_in_gc s;
     _skipped_in_signal_handler := _skipped_in_signal_handler s;
     _skipped_in_job_registered := v;
     _skipped_in_not_running := _skipped_in_not_running s; _ruby_thread := _ruby_thread s;
     _job_registered := _job_registered s; gc_registered := gc_registered s;
     timer_armed := timer_armed s; stderr := stderr s |}.

Definition set_skipped_in_not_running (v : N) (s : thread_vars) : thread_vars :=
  {| _traces := _traces s; _thread_registered := _thread_registered s;
     _ok_to_sample := _ok_to_sample s; _in_signal_handler := _in_signal_handler s;
     _start_frame_index := _start_frame_index s;
     _start_trace_index := _start_trace_index s; _cur_traces_num := _cur_traces_num s;
     _skipped_in_gc := _skipped_in_gc s;
     _skipped_in_signal_handler := _skipped_in_signal_handler s;
     _skipped_in_job_registered := _skipped_in_job_registered s;
     _skipped_in_not_running := v; _ruby_thread := _ruby_thread s;
     _job_registered := _job_registered s; gc_registered := gc_registered s;
     timer_armed := timer_armed s; stderr := stderr s |}.

Definition set_ruby_thread (v : VALUE) (s : thread_vars) : thread_vars :=
  {| _traces := _traces s; _thread_registered := _thread_registered s;
     _ok_to_sample := _ok_to_sample s; _in_signal_handler := _in_signal_handler s;
     _start_frame_index := _start_frame_index s;
     _start_trace_index := _start_trace_index s; _cur_traces_num := _cur_traces_num s;
     _skipped_in_gc := _skipped_in_gc s;
     _skipped_in_signal_handler := _skipped_in_signal_handler s;
     _skipped_in_job_registered := _skipped_in_job_registered s;
     _skipped_in_not_running := _skipped_in_not_running s; _ruby_thread := v;
     _job_registered := _job_registered s; gc_registered := gc_registered s;
     timer_armed := timer_armed s; stderr := stderr s |}.

Definition set_job_registered (v : bool) (s : thread_vars) : thread_vars :=
  {| _traces := _traces s; _thread_registered := _thread_registered s;
     _ok_to_sample := _ok_to_sample s; _in_signal_handler := _in_signal_handler s;
     _start_frame_index := _start_frame_index s;
     _start_trace_index := _start_trace_index s; _cur_traces_num := _cur_traces_num s;
     _skipped_in_gc := _skipped_in_gc s;
     _skipped_in_signal_handler := _skipped_in_signal_handler s;
     _skipped_in_job_registered := _skipped_in_job_registered s;
     _skipped_in_not_running := _skipped_in_not_running s; _ruby_thread := _ruby_thread s;
     _job_registered := v; gc_registered := gc_registered s; timer_armed := timer_armed s;
     stderr := stderr s |}.

Definition set_gc_registered (v : bool) (s : thread_vars) : thread_vars :=
  {| _traces := _traces s; _thread_registered := _thread_registered s;
     _ok_to_sample := _ok_to_sample s; _in_signal_handler := _in_signal_handler s;
     _start_frame_index := _start_frame_index s;
     _start_trace_index := _start_trace_index s; _cur_traces_num := _cur_traces_num s;
     _skipped_in_gc := _skipped_in_gc s;
     _skipped_in_signal_handler := _skipped_in_signal_handler s;
     _skipped_in_job_registered := _skipped_in_job_registered s;
     _skipped_in_not_running := _skipped_in_not_running s; _ruby_thread := _ruby_thread s;
     _job_registered := _job_registered s; gc_registered := v;
     timer_armed := timer_armed s; stderr := stderr s |}.

Definition set_timer_armed (v : bool) (s : thread_vars) : thread_vars :=
  {| _traces := _traces s; _thread_registered := _thread_registered s;
     _ok_to_sample := _ok_to_sample s; _in_signal_handler := _in_signal_handler s;
     _start_frame_index := _start_frame_index s;
     _start_trace_index := _start_trace_index s; _cur_traces_num := _cur_traces_num s;
     _skipped_in_gc := _skipped_in_gc s;
     _skipped_in_signal_handler := _skipped_in_signal_handler s;
     _skipped_in_job_registered := _skipped_in_job_registered s;
     _skipped_in_not_running := _skipped_in_not_running s; _ruby_thread := _ruby_thread s;
     _job_registered := _job_registered s; gc_registered := gc_registered s;
     timer_armed := v; stderr := stderr s |}.

Definition set_stderr (v : list diag) (s : thread_vars) : thread_vars :=
  {| _traces := _traces s; _thread_registered := _thread_registered s;
     _ok_to_sample := _ok_to_sample s; _in_signal_handler := _in_signal_handler s;
     _start_frame_index := _start_frame_index s;
     _start_trace_index := _start_trace_index s; _cur_traces_num := _cur_traces_num s;
     _skipped_in_gc := _skipped_in_gc s;
     _skipped_in_signal_handler := _skipped_in_signal_handler s;
     _skipped_in_job_registered := _skipped_in_job_registered s;
     _skipped_in_not_running := _skipped_in_not_running s; _ruby_thread := _ruby_thread s;
     _job_registered := _job_registered s; gc_registered := gc_registered s;
     timer_armed := timer_armed s; stderr := v |}.

(** The process-wide variables, with the state they stand for outside the
    file: the SIGALRM disposition, the process-wide interval timer and the
    constant [INSTALLED] of the class. *)
Record global_vars : Type := {
  scout_profiling_installed : Z;
  scout_profiling_running : Z;
  sigalrm_handler : bool;
  itimer_real : bool;
  const_INSTALLED : bool
}.

(** What the Ruby runtime and the operating system answer during one
    invocation of a function of the file. *)
Record runtime : Type := {
  rb_during_gc : bool;
  rb_thread_current : VALUE;
  rb_postponed_job_register : Z;
  call_stack : list (VALUE * Z);     (* innermost frame first, with its line *)
  BUILTIN_TYPE : Z -> ruby_type;     (* the type of the heap object at an address *)
  ALLOC_N : N -> c_trace;            (* the content of freshly allocated memory *)
  pthread_atfork : Z;
  timer_create : Z;
  timer_settime : Z;
  sigprocmask_block : Z;
  sigprocmask_unblock : Z;
  errno : Z
}.

Definition TYPE (rt : runtime) (v : VALUE) : ruby_type :=
  match v with
  | Qfalse => T_FALSE
  | Qnil => T_NIL
  | Qtrue => T_TRUE
  | Fixnum _ => T_FIXNUM
  | Object a => BUILTIN_TYPE rt a
  end.

(** [NUM2INT] on the values of the model: the [int] of a small integer,
    RangeError out of the range of [int], TypeError for nil, true and
    false.  An [Object] stands for a heap object without a conversion to an
    integer (a frame, a thread), on which it raises TypeError as well.
    Floats, which it truncates, big integers and objects that answer to
    [to_int], on which it calls back into Ruby, are not among the values
    of the model. *)
Definition NUM2INT (v : VALUE) : option Z :=
  match v with
  | Fixnum n => if (- 2 ^ 31 <=? n) && (n <? 2 ^ 31) then Some n else None
  | _ => None
  end.

(** [rb_ary_new2 (capa)] raises ArgumentError, and does not return, when
    [capa] is negative as a [long] or above [ARY_MAX_SIZE].  Running out of
    memory is outside the model. *)
Definition ARY_MAX_SIZE (b : build) : Z :=
  (2 ^ (long_bits b - 1) - 1) / (long_bits b / 8).

Definition rb_ary_new2 (b : build) (capa : Z) : bool :=
  (0 <=? to_long b capa) && (to_long b capa <=? ARY_MAX_SIZE b).

(** [rb_profile_frames (0, limit, buff, lines)]: the number of frames it
    writes, and the two arrays after it wrote them. *)
Definition rb_profile_frames_count (rt : runtime) (limit : Z) : Z :=
  Z.min (Z.of_nat (length (call_stack rt))) limit.

Definition written (rt : runtime) (limit i : Z) : bool :=
  (0 <=? i) && (i <? rb_profile_frames_count rt limit).

Definition rb_profile_frames_buff (rt : runtime) (limit : Z) (buff : Z -> VALUE)
  : Z -> VALUE :=
  fun i => if written rt limit i
           then fst (nth (Z.to_nat i) (call_stack rt) (Qnil, 0))
           else buff i.

Definition rb_profile_frames_lines (rt : runtime) (limit : Z) (lines : Z -> Z)
  : Z -> Z :=
  fun i => if written rt limit i
           then snd (nth (Z.to_nat i) (call_stack rt) (Qnil, 0))
           else lines i.

Definition log (d : diag) (s : thread_vars) : thread_vars :=
  set_stderr (stderr s ++ [d]) s.

(** ** The functions of stacks.c *)

Definition trace_store (traces : N -> c_trace) (k : N) (t : c_trace) : N -> c_trace :=
  fun i => if N.eqb i k then t else traces i.

Definition set_num_tracelines (v : Z) (t : c_trace) : c_trace :=
  {| num_tracelines := v; lines_buf := lines_buf t; frames_buf := frames_buf t |}.

Section Sampler.

Variable b : build.
Variable rt : runtime.

(** *** Timers *)

(** Of the two [sigprocmask] calls the model keeps the diagnostics.  Their
    effect on the signal mask of the thread (the first replaces it by
    SIGALRM alone, the second unblocks SIGALRM, and nothing puts the old
    mask back) is outside the state of the model: what is said of a state
    below is said of the variables of the file, the registration with the
    collector, the arming of the timer and the diagnostic stream. *)
Definition scout_start_thread_timer (s : thread_vars) : thread_vars :=
  if linux b then
    if negb (ATOMIC_LOAD (_thread_registered s)) then s
    else
      let s := if sigprocmask_block rt =? -1
               then log (Block_mask_failed (errno rt)) s else s in
      let s := if timer_settime rt =? -1
               then log (Timer_set_failed_in_start_sampling (errno rt)) s
               else set_timer_armed true s in
      if sigprocmask_unblock rt =? -1
      then log (UNBlock_mask_failed (errno rt)) s else s
  else s.

Definition scout_stop_thread_timer (s : thread_vars) : thread_vars :=
  if negb (ATOMIC_LOAD (_thread_registered s)) then s
  else if linux b then
    if timer_settime rt =? -1
    then log (Timer_set_failed (errno rt)) s
    else set_timer_armed false s
  else s.

Definition scout_parent_atfork_prepare (s : thread_vars) : thread_vars :=
  if ATOMIC_LOAD (_ok_to_sample s) then scout_stop_thread_timer s else s.

Definition scout_parent_atfork_finish (s : thread_vars) : thread_vars :=
  if ATOMIC_LOAD (_ok_to_sample s) then scout_start_thread_timer s else s.

(** *** Registration *)

Definition init_thread_vars (s : thread_vars) : thread_vars :=
  let s := set_ok_to_sample (ATOMIC_STORE_BOOL false) s in
  let s := set_in_signal_handler (ATOMIC_STORE_BOOL false) s in
  let s := set_start_frame_index (ATOMIC_STORE_INT16 0) s in
  let s := set_start_trace_index (ATOMIC_STORE_INT16 0) s in
  let s := set_cur_traces_num (ATOMIC_STORE_INT16 0) s in
  let s := set_ruby_thread (rb_thread_current rt) s in
  let s := set_traces (ALLOC_N rt) s in
  let s := set_gc_registered true s in
  let res := pthread_atfork rt in
  let s := if negb (res =? 0) then log (Pthread_atfork_failed res) s else s in
  if linux b then
    if timer_create rt =? -1
    then log (Time_create_failed (errno rt)) s
    else set_timer_armed false s
  else s.

Definition scout_add_profiled_thread (s : thread_vars) : Z * thread_vars :=
  if ATOMIC_LOAD (_thread_registered s) then (1, s)
  else
    let s := init_thread_vars s in
    let s := set_thread_registered (ATOMIC_STORE_BOOL true) s in
    (1, s).

Definition rb_scout_add_profiled_thread (s : thread_vars) : VALUE * thread_vars :=
  (Qtrue, snd (scout_add_profiled_thread s)).

(** [None] for the result when the call does not return.  On a registered
    thread the function clears [_ok_to_sample], unregisters [_gc_hook] and
    then gives [xfree] the address of the thread-local variable [_gc_hook],
    which no allocation returned: the allocator aborts the process there.
    The rest of the function ([xfree] of the address of [_traces],
    [timer_delete], the store of false to [_thread_registered] and
    [return 0]) is not reached; the state returned is the one at the
    abort. *)
Definition remove_profiled_thread (s : thread_vars) : option Z * thread_vars :=
  if negb (ATOMIC_LOAD (_thread_registered s)) then (Some 1, s)
  else
    let s := set_ok_to_sample (ATOMIC_STORE_BOOL false) s in
    let s := set_gc_registered false s in
    (None, s).

Definition rb_scout_remove_profiled_thread (s : thread_vars)
  : option VALUE * thread_vars :=
  match remove_profiled_thread s with
  | (Some _, s) => (Some Qtrue, s)
  | (None, s) => (None, s)
  end.

(** *** Installation *)

Definition rb_scout_start_profiling (g : global_vars) : VALUE * global_vars :=
  if negb (scout_profiling_running g =? 0) then (Qtrue, g)
  else
    (Qtrue,
     {| scout_profiling_installed := scout_profiling_installed g;
        scout_profiling_running := 1;
        sigalrm_handler := sigalrm_handler g;
        itimer_real := itimer_real g;
        const_INSTALLED := const_INSTALLED g |}).

Definition rb_scout_uninstall_profiling (g : global_vars) : VALUE * global_vars :=
  (Qnil, g).

Definition rb_scout_install_profiling (g : global_vars) : VALUE * global_vars :=
  if negb (scout_profiling_installed g =? 0) then (Qfalse, g)
  else
    (Qtrue,
     {| scout_profiling_installed := 1;
        scout_profiling_running := scout_profiling_running g;
        sigalrm_handler := true;
        itimer_real := if negb (linux b) then true else itimer_real g;
        const_INSTALLED := true |}).

(** *** The interrupt handler *)

Definition scout_profile_broadcast_signal_handler (s : thread_vars) : thread_vars :=
  if negb (ATOMIC_LOAD (_ok_to_sample s)) then s
  else if ATOMIC_LOAD (_in_signal_handler s) then
    set_skipped_in_signal_handler (ATOMIC_ADD 32 (_skipped_in_signal_handler s) 1) s
  else
    let s := set_in_signal_handler (ATOMIC_STORE_BOOL true) s in
    let s :=
      if rb_during_gc rt then
        set_skipped_in_gc (ATOMIC_ADD 32 (_skipped_in_gc s) 1) s
      else if negb (VALUE_eqb (rb_thread_current rt) (_ruby_thread s)) then
        set_skipped_in_not_running (ATOMIC_ADD 32 (_skipped_in_not_running s) 1) s
      else if negb (ATOMIC_LOAD (_job_registered s)) then
        let register_result := rb_postponed_job_register rt in
        if (register_result =? 1) || (register_result =? 2) then
          set_job_registered (ATOMIC_STORE_BOOL true) s
        else
          set_skipped_in_job_registered
            (ATOMIC_ADD 32 (_skipped_in_job_registered s) 1) s
      else s in
    set_in_signal_handler (ATOMIC_STORE_BOOL false) s.

(** *** The deferred capture *)

Definition scout_record_sample (s : thread_vars) : thread_vars :=
  if negb (ATOMIC_LOAD (_ok_to_sample s)) then s
  else if rb_during_gc rt then
    set_skipped_in_gc (ATOMIC_ADD 32 (_skipped_in_gc s) 1) s
  else if negb (VALUE_eqb (rb_thread_current rt) (_ruby_thread s)) then
    set_skipped_in_not_running (ATOMIC_ADD 32 (_skipped_in_not_running s) 1) s
  else
    let cur_traces_num := ATOMIC_LOAD (_cur_traces_num s) in
    let start_frame_index := ATOMIC_LOAD (_start_frame_index s) in
    let s :=
      if Z.of_N cur_traces_num <? MAX_TRACES then
        let num_frames := rb_profile_frames_count rt BUF_SIZE in
        let slot := _traces s cur_traces_num in
        let slot :=
          {| num_tracelines := num_tracelines slot;
             lines_buf := rb_profile_frames_lines rt BUF_SIZE (lines_buf slot);
             frames_buf := rb_profile_frames_buff rt BUF_SIZE (frames_buf slot) |} in
        let s := set_traces (trace_store (_traces s) cur_traces_num slot) s in
        if fast16_arith b (num_frames - Z.of_N start_frame_index) >? 2 then
          let lines :=
            to_int (fast16_arith b
                      (fast16_arith b (num_frames - Z.of_N start_frame_index) - 2)) in
          let s := set_traces
                     (trace_store (_traces s) cur_traces_num
                        (set_num_tracelines lines slot)) s in
          set_cur_traces_num (ATOMIC_ADD 16 (_cur_traces_num s) 1) s
        else s
      else s in
    set_job_registered (ATOMIC_STORE_BOOL false) s.

(** *** Draining *)

Definition valid_frame (t : c_trace) (n : Z) : bool :=
  ruby_type_eqb (TYPE rt (frames_buf t n)) (VALID_RUBY_FRAME b).

(** The loop over [n]: [count] iterations are left, [trace] is the array
    built so far and [err] the diagnostic stream. *)
Fixpoint lines_loop (t : c_trace) (count : nat) (n : Z)
  (trace : list (VALUE * VALUE)) (err : list diag)
  : list (VALUE * VALUE) * list diag :=
  match count with
  | O => (trace, err)
  | S count =>
      if valid_frame t n then
        lines_loop t count (n + 1)
          (trace ++ [(frames_buf t n, INT2FIX (lines_buf t n))]) err
      else
        lines_loop t count (n + 1) trace
          (err ++ [Non_data_frame (TYPE rt (frames_buf t n))])
  end.

(** The loop over [i]; [None] when an [rb_ary_new2] raised. *)
Fixpoint traces_loop (tr : N -> c_trace) (count : nat) (i : N)
  (traces : list (list (VALUE * VALUE))) (err : list diag)
  : option (list (list (VALUE * VALUE))) * list diag :=
  match count with
  | O => (Some traces, err)
  | S count =>
      if num_tracelines (tr i) >? 0 then
        if rb_ary_new2 b (num_tracelines (tr i)) then
          let '(trace, err) :=
            lines_loop (tr i) (Z.to_nat (num_tracelines (tr i))) 0 [] err in
          traces_loop tr count (i + 1)%N (traces ++ [trace]) err
        else (None, err)
      else traces_loop tr count (i + 1)%N traces err
  end.

(** [None] for the result when the call raised. *)
Definition rb_scout_profile_frames (s : thread_vars)
  : option (list (list (VALUE * VALUE))) * thread_vars :=
  if negb (ATOMIC_LOAD (_thread_registered s)) then
    let s := log Not_profiled_thread s in
    let s := set_cur_traces_num (ATOMIC_STORE_INT16 0) s in
    (Some [], s)
  else
    let cur_traces_num := ATOMIC_LOAD (_cur_traces_num s) in
    let start_trace_index := ATOMIC_LOAD (_start_trace_index s) in
    let size := fast16_arith b (Z.of_N cur_traces_num - Z.of_N start_trace_index) in
    if size >? 0 then
      if rb_ary_new2 b size then
        match traces_loop (_traces s)
                (N.to_nat (cur_traces_num - start_trace_index)) start_trace_index
                [] (stderr s) with
        | (Some traces, err) =>
            let s := set_stderr err s in
            (Some traces,
             set_cur_traces_num (ATOMIC_STORE_INT16 (Z.of_N start_trace_index)) s)
        | (None, err) => (None, set_stderr err s)
        end
      else (None, s)
    else
      (Some [],
       set_cur_traces_num (ATOMIC_STORE_INT16 (Z.of_N start_trace_index)) s).

(** *** Control *)

Definition rb_scout_start_sampling (s : thread_vars) : VALUE * thread_vars :=
  let s := snd (scout_add_profiled_thread s) in
  let s := set_ok_to_sample (ATOMIC_STORE_BOOL true) s in
  let s := if linux b then scout_start_thread_timer s else s in
  (Qtrue, s).

Definition rb_scout_stop_sampling (reset : VALUE) (s : thread_vars)
  : VALUE * thread_vars :=
  let s := if ATOMIC_LOAD (_ok_to_sample s)
           then if linux b then scout_stop_thread_timer s else s
           else s in
  let s := set_ok_to_sample (ATOMIC_STORE_BOOL false) s in
  if ruby_type_eqb (TYPE rt reset) T_TRUE then
    let s := set_job_registered (ATOMIC_STORE_BOOL false) s in
    let s := set_in_signal_handler (ATOMIC_STORE_BOOL false) s in
    let s := set_start_trace_index (ATOMIC_STORE_INT16 0) s in
    let s := set_start_frame_index (ATOMIC_STORE_INT16 0) s in
    let s := set_cur_traces_num (ATOMIC_STORE_INT16 0) s in
    let s := set_skipped_in_gc (ATOMIC_STORE_INT32 0) s in
    let s := set_skipped_in_signal_handler (ATOMIC_STORE_INT32 0) s in
    let s := set_skipped_in_job_registered (ATOMIC_STORE_INT32 0) s in
    let s := set_skipped_in_not_running (ATOMIC_STORE_INT32 0) s in
    (Qtrue, s)
  else (Qtrue, s).

(** [None] for the result when a [NUM2INT] raised; the first store is done
    before the second argument is converted. *)
Definition rb_scout_update_indexes (frame_index trace_index : VALUE) (s : thread_vars)
  : option VALUE * thread_vars :=
  match NUM2INT trace_index with
  | None => (None, s)
  | Some t =>
      let s := set_start_trace_index (ATOMIC_STORE_INT16 t) s in
      match NUM2INT frame_index with
      | None => (None, s)
      | Some f =>
          let s := set_start_frame_index (ATOMIC_STORE_INT16 f) s in
          (Some Qtrue, s)
      end
  end.

(** [INT2NUM] takes an [int]: the unsigned value read is converted first. *)
Definition rb_scout_current_trace_index (s : thread_vars) : VALUE :=
  INT2NUM (to_int (Z.of_N (ATOMIC_LOAD (_cur_traces_num s)))).

Definition rb_scout_current_frame_index : VALUE :=
  let num_frames := rb_profile_frames_count rt BUF_SIZE in
  if num_frames >? 1 then INT2NUM (num_frames - 1) else INT2NUM 0.

Definition rb_scout_skipped_in_gc (s : thread_vars) : VALUE :=
  INT2NUM (to_int (Z.of_N (ATOMIC_LOAD (_skipped_in_gc s)))).

Definition rb_scout_skipped_in_handler (s : thread_vars) : VALUE :=
  INT2NUM (to_int (Z.of_N (ATOMIC_LOAD (_skipped_in_signal_handler s)))).

Definition rb_scout_skipped_in_job_registered (s : thread_vars) : VALUE :=
  INT2NUM (to_int (Z.of_N (ATOMIC_LOAD (_skipped_in_job_registered s)))).

Definition rb_scout_skipped_in_not_running (s : thread_vars) : VALUE :=
  INT2NUM (to_int (Z.of_N (ATOMIC_LOAD (_skipped_in_not_running s)))).

End Sampler.

(** *** Marking for the collector *)

(** The loop over [n] of [scoutprof_gc_mark]: [marked] is the list of the
    values given to [rb_gc_mark] so far. *)
Fixpoint mark_lines (t : c_trace) (count : nat) (n : Z) (marked : list VALUE)
  : list VALUE :=
  match count with
  | O => marked
  | S count => mark_lines t count (n + 1) (marked ++ [frames_buf t n])
  end.

(** The loop over [i]. *)
Fixpoint mark_traces (tr : N -> c_trace) (count : nat) (i : N) (marked : list VALUE)
  : list VALUE :=
  match count with
  | O => marked
  | S count =>
      mark_traces tr count (i + 1)%N
        (mark_lines (tr i) (Z.to_nat (num_tracelines (tr i))) 0 marked)
  end.

(** [scoutprof_gc_mark]: the values it marks, in order.  The function does
    not use its argument [data]; it reads [_cur_traces_num] and [_traces],
    which are thread-local: [s] is the variables of the thread on which the
    collector calls it, whichever thread registered the hook. *)
Definition scoutprof_gc_mark (s : thread_vars) : list VALUE :=
  mark_traces (_traces s) (N.to_nat (ATOMIC_LOAD (_cur_traces_num s))) 0%N [].

(** ** The sampler as a machine *)

(** What can happen to the thread: a method of [ScoutApm::Instruments::Stacks]
    is called on it (the names are those [Init_stacks] gives them), SIGALRM is
    delivered to it, the runtime runs a postponed job on it, or the process
    forks. *)
Module Stacks.

Inductive call : Type :=
| install
| uninstall
| start
| add_profiled_thread
| remove_profiled_thread
| profile_frames
| start_sampling
| stop_sampling (reset : VALUE)
| update_indexes (frame_index trace_index : VALUE)
| current_trace_index
| current_frame_index
| skipped_in_gc
| skipped_in_handler
| skipped_in_job_registered
| skipped_in_not_running
| SIGALRM
| postponed_job
| atfork_prepare
| atfork_parent.

End Stacks.

Record machine : Type := {
  globals : global_vars;
  thread : thread_vars
}.

Definition on_globals (f : global_vars -> global_vars) (m : machine) : machine :=
  {| globals := f (globals m); thread := thread m |}.

Definition on_thread (f : thread_vars -> thread_vars) (m : machine) : machine :=
  {| globals := globals m; thread := f (thread m) |}.

(** One event.  SIGALRM runs the handler when [install] has set it up.  A
    call that does not return (it raises, or the process aborts) leaves the
    state where it stopped.  A history that goes on after an abort is the
    history of no process: such histories only add states to those the
    statements below cover. *)
Definition step (b : build) (rt : runtime) (c : Stacks.call) (m : machine) : machine :=
  match c with
  | Stacks.install => on_globals (fun g => snd (rb_scout_install_profiling b g)) m
  | Stacks.uninstall => on_globals (fun g => snd (rb_scout_uninstall_profiling g)) m
  | Stacks.start => on_globals (fun g => snd (rb_scout_start_profiling g)) m
  | Stacks.add_profiled_thread =>
      on_thread (fun s => snd (rb_scout_add_profiled_thread b rt s)) m
  | Stacks.remove_profiled_thread =>
      on_thread (fun s => snd (rb_scout_remove_profiled_thread s)) m
  | Stacks.profile_frames => on_thread (fun s => snd (rb_scout_profile_frames b rt s)) m
  | Stacks.start_sampling => on_thread (fun s => snd (rb_scout_start_sampling b rt s)) m
  | Stacks.stop_sampling reset =>
      on_thread (fun s => snd (rb_scout_stop_sampling b rt reset s)) m
  | Stacks.update_indexes frame_index trace_index =>
      on_thread (fun s => snd (rb_scout_update_indexes frame_index trace_index s)) m
  | Stacks.current_trace_index | Stacks.current_frame_index
  | Stacks.skipped_in_gc | Stacks.skipped_in_handler
  | Stacks.skipped_in_job_registered | Stacks.skipped_in_not_running => m
  | Stacks.SIGALRM =>
      if sigalrm_handler (globals m)
      then on_thread (scout_profile_broadcast_signal_handler rt) m
      else m
  | Stacks.postponed_job => on_thread (scout_record_sample b rt) m
  | Stacks.atfork_prepare => on_thread (scout_parent_atfork_prepare b rt) m
  | Stacks.atfork_parent => on_thread (scout_parent_atfork_finish b rt) m
  end.

(** A history: each event with what the runtime answers during it. *)
Fixpoint run (b : build) (l : list (runtime * Stacks.call)) (m : machine) : machine :=
  match l with
  | [] => m
  | (rt, c) :: l => run b l (step b rt c m)
  end.

(** The variables as their initialisers leave them in a new thread and at
    load time; [mem] is what reads through the unset [_traces] would see. *)
Definition thread_initial (mem : N -> c_trace) : thread_vars :=
  {| _traces := mem;
     _thread_registered := false;
     _ok_to_sample := false;
     _in_signal_handler := false;
     _start_frame_index := 0%N;
     _start_trace_index := 0%N;
     _cur_traces_num := 0%N;
     _skipped_in_gc := 0%N;
     _skipped_in_signal_handler := 0%N;
     _skipped_in_job_registered := 0%N;
     _skipped_in_not_running := 0%N;
     _ruby_thread := Qfalse;
     _job_registered := false;
     gc_registered := false;
     timer_armed := false;
     stderr := [] |}.

Definition global_initial : global_vars :=
  {| scout_profiling_installed := 0;
     scout_profiling_running := 0;
     sigalrm_handler := false;
     itimer_real := false;
     const_INSTALLED := false |}.

Definition machine_initial (mem : N -> c_trace) : machine :=
  {| globals := global_initial; thread := thread_initial mem |}.

(** ** Concrete targets and runtimes, for the examples *)

Definition glibc_x86_64 : build :=
  {| linux := true; uint_fast16_t := Fast16_long; long := Long64;
     VALID_RUBY_FRAME := T_IMEMO |}.

Definition darwin : build :=
  {| linux := false; uint_fast16_t := Fast16_short; long := Long64;
     VALID_RUBY_FRAME := T_IMEMO |}.

Definition blank_trace : c_trace :=
  {| num_tracelines := 0; lines_buf := fun _ => 0; frames_buf := fun _ => Qfalse |}.

Definition blank_memory : N -> c_trace := fun _ => blank_trace.

Definition main_thread : VALUE := Object 4096.

(** A call stack of [depth] frames: frame [k] is the object at address
    [8192 + k], at line [100 + k]. *)
Definition frames (depth : nat) : list (VALUE * Z) :=
  map (fun k => (Object (8192 + Z.of_nat k), 100 + Z.of_nat k)) (seq 0 depth).

(** The runtime at rest on the main thread: no collection going on, the job
    queue accepts a job, every system call succeeds, frames are [T_IMEMO]. *)
Definition quiet (stack : list (VALUE * Z)) : runtime :=
  {| rb_during_gc := false;
     rb_thread_current := main_thread;
     rb_postponed_job_register := 1;
     call_stack := stack;
     BUILTIN_TYPE := fun a => if a =? 4096 then T_DATA else T_IMEMO;
     ALLOC_N := blank_memory;
     pthread_atfork := 0;
     timer_create := 0;
     timer_settime := 0;
     sigprocmask_block := 0;
     sigprocmask_unblock := 0;
     errno := 0 |}.

(** The same while the collector runs. *)
Definition collecting (stack : list (VALUE * Z)) : runtime :=
  {| rb_during_gc := true;
     rb_thread_current := main_thread;
     rb_postponed_job_register := 1;
     call_stack := stack;
     BUILTIN_TYPE := BUILTIN_TYPE (quiet stack);
     ALLOC_N := blank_memory;
     pthread_atfork := 0;
     timer_create := 0;
     timer_settime := 0;
     sigprocmask_block := 0;
     sigprocmask_unblock := 0;
     errno := 0 |}.

(** The same but the frames are of a type [profile_frames] does not accept. *)
Definition odd_frames (stack : list (VALUE * Z)) : runtime :=
  {| rb_during_gc := false;
     rb_thread_current := main_thread;
     rb_postponed_job_register := 1;
     call_stack := stack;
     BUILTIN_TYPE := fun _ => T_NODE;
     ALLOC_N := blank_memory;
     pthread_atfork := 0;
     timer_create := 0;
     timer_settime := 0;
     sigprocmask_block := 0;
     sigprocmask_unblock := 0;
     errno := 0 |}.

(** ** Vocabulary of the statements *)

(** The entry checks of the capture all pass: sampling is enabled, no
    collection is going on, and the thread that runs is the one the sampler
    belongs to. *)
Definition capture_proceeds (rt : runtime) (s : thread_vars) : Prop :=
  _ok_to_sample s = true
  /\ rb_during_gc rt = false
  /\ rb_thread_current rt = _ruby_thread s.

(** The four skip counters, in the order stop_sampling clears them. *)
Definition skip_counters (s : thread_vars) : N * N * N * N :=
  (_skipped_in_gc s, _skipped_in_signal_handler s,
   _skipped_in_job_registered s, _skipped_in_not_running s).

(** [count] consecutive indices from [n] on. *)
Fixpoint Zrange (n : Z) (count : nat) : list Z :=
  match count with
  | O => []
  | S count => n :: Zrange (n + 1) count
  end.

Fixpoint Nrange (i : N) (count : nat) : list N :=
  match count with
  | O => []
  | S count => i :: Nrange (i + 1)%N count
  end.

(** The slots between the trim point and the top of the buffer. *)
Definition pending_slots (s : thread_vars) : list N :=
  Nrange (_start_trace_index s)
    (N.to_nat (_cur_traces_num s - _start_trace_index s)).

Definition has_lines (s : thread_vars) (i : N) : bool :=
  0 <? num_tracelines (_traces s i).

Definition line_indices (t : c_trace) : list Z :=
  Zrange 0 (Z.to_nat (num_tracelines t)).

(** Every (frame, line) pair of a stored trace, in order. *)
Definition all_lines (t : c_trace) : list (VALUE * VALUE) :=
  map (fun n => (frames_buf t n, INT2FIX (lines_buf t n))) (line_indices t).

(** The pairs of a stored trace whose frame has the type of a frame. *)
Definition accepted_lines (b : build) (rt : runtime) (t : c_trace)
  : list (VALUE * VALUE) :=
  map (fun n => (frames_buf t n, INT2FIX (lines_buf t n)))
    (filter (valid_frame b rt t) (line_indices t)).

(** The diagnostics for the other frames of the trace. *)
Definition rejected_frames (b : build) (rt : runtime) (t : c_trace) : list diag :=
  map (fun n => Non_data_frame (TYPE rt (frames_buf t n)))
    (filter (fun n => negb (valid_frame b rt t n)) (line_indices t)).

(** What a drain returns if every pending trace that has lines is returned
    with all its pairs. *)
Definition every_pending_line (s : thread_vars) : list (list (VALUE * VALUE)) :=
  map (fun i => all_lines (_traces s i))
    (filter (fun i => negb (num_tracelines (_traces s i) =? 0)) (pending_slots s)).

(** The trim point is not above the top of the buffer. *)
Definition trim_ordered (s : thread_vars) : Prop :=
  (_start_trace_index s <= _cur_traces_num s)%N.

(** The calls that keep [trim_ordered]: all but an update_indexes whose
    trace index is above the top of the buffer, and a drain on a thread that
    is not registered while the trim point is not 0. *)
Definition keeps_trim_order (c : Stacks.call) (s : thread_vars) : bool :=
  match c with
  | Stacks.update_indexes _ trace_index =>
      match NUM2INT trace_index with
      | Some t => (ATOMIC_STORE_INT16 t <=? _cur_traces_num s)%N
      | None => true
      end
  | Stacks.profile_frames =>
      _thread_registered s || (_start_trace_index s =? 0)%N
  | _ => true
  end.

(** The calls that keep the trim point inside the buffer: all but an
    update_indexes whose trace index is above [MAX_TRACES]. *)
Definition trims_inside_buffer (c : Stacks.call) : bool :=
  match c with
  | Stacks.update_indexes _ trace_index =>
      match NUM2INT trace_index with
      | Some t => Z.of_N (ATOMIC_STORE_INT16 t) <=? MAX_TRACES
      | None => true
      end
  | _ => true
  end.

(** Both indices of the trace buffer are inside it. *)
Definition inside_buffer (s : thread_vars) : Prop :=
  Z.of_N (_cur_traces_num s) <= MAX_TRACES
  /\ Z.of_N (_start_trace_index s) <= MAX_TRACES.

(** What a drain returns of the pending slots: those with lines, each as
    the pairs whose frame has the type of a frame. *)
Definition drained (b : build) (rt : runtime) (s : thread_vars)
  : list (list (VALUE * VALUE)) :=
  map (fun i => accepted_lines b rt (_traces s i))
    (filter (has_lines s) (pending_slots s)).

(** The diagnostics of that drain. *)
Definition drain_diags (b : build) (rt : runtime) (s : thread_vars) : list diag :=
  flat_map (fun i => rejected_frames b rt (_traces s i))
    (filter (has_lines s) (pending_slots s)).

(** A registered thread whose number of traces is within the buffer, whose
    trim point is not above it and whose pending traces are no longer than
    the buffers of a slot. *)
Definition drainable (s : thread_vars) : Prop :=
  _thread_registered s = true
  /\ Z.of_N (_cur_traces_num s) <= MAX_TRACES
  /\ trim_ordered s
  /\ (forall i, In i (pending_slots s) -> num_tracelines (_traces s i) <= BUF_SIZE).

(** The deferred capture run once for each runtime of the list, in order. *)
Fixpoint captures (b : build) (rts : list runtime) (s : thread_vars) : thread_vars :=
  match rts with
  | [] => s
  | rt :: rts => captures b rts (scout_record_sample b rt s)
  end.

(** The handler run once for each runtime of the list, in order. *)
Fixpoint interrupts (rts : list runtime) (s : thread_vars) : thread_vars :=
  match rts with
  | [] => s
  | rt :: rts => interrupts rts (scout_profile_broadcast_signal_handler rt s)
  end.

(** The pairs a capture keeps of the stack the runtime shows: the innermost
    ones, all but [start_frame_index + 2] of those [rb_profile_frames]
    returns. *)
Definition kept_lines (rt : runtime) (start_frame_index : N) : list (VALUE * VALUE) :=
  map (fun fl => (fst fl, INT2FIX (snd fl)))
    (firstn
       (Z.to_nat (rb_profile_frames_count rt BUF_SIZE - Z.of_N start_frame_index - 2))
       (call_stack rt)).

(** A runtime in which a capture of the sampler [s] passes the checks on
    the collector and the thread, and finds more than
    [start_frame_index + 2] frames. *)
Definition stores_trace (s : thread_vars) (rt : runtime) : Prop :=
  rb_during_gc rt = false
  /\ rb_thread_current rt = _ruby_thread s
  /\ Z.of_N (_start_frame_index s) + 2 < rb_profile_frames_count rt BUF_SIZE.

(** Every frame of the stack that [rt] shows has, when [rt'] is asked, the
    type of a frame. *)
Definition frames_valid (b : build) (rt' rt : runtime) : Prop :=
  Forall (fun fl => TYPE rt' (fst fl) = VALID_RUBY_FRAME b) (call_stack rt).

(** The system calls of the timer functions succeed. *)
Definition timer_calls_succeed (rt : runtime) : Prop :=
  timer_settime rt <> -1
  /\ sigprocmask_block rt <> -1
  /\ sigprocmask_unblock rt <> -1.

(** An unsigned 32-bit value as the [int] that [INT2NUM] is given. *)
Definition as_int (c : N) : Z :=
  if Z.of_N c <? 2 ^ 31 then Z.of_N c else Z.of_N c - 2 ^ 32.

(** The variables that registration, sampling and the handshake between
    the handler and the capture use. *)
Definition handshake (s : thread_vars) : bool * bool * bool * (N * N * N * N) :=
  (_thread_registered s, _ok_to_sample s, _job_registered s, skip_counters s).

(** A thread that is not registered has never sampled: sampling is
    disabled, no job is registered and the four skip counters are 0. *)
Definition unused_until_registered (s : thread_vars) : Prop :=
  _thread_registered s = false ->
  _ok_to_sample s = false
  /\ _job_registered s = false
  /\ skip_counters s = (0, 0, 0, 0)%N.

(** * Properties *)

(** ** Arithmetic of the C types *)

Lemma VALUE_eqb_eq (a b : VALUE) : VALUE_eqb a b = true <-> a = b.
Proof.
  destruct a, b; simpl; split; intro H;
    try reflexivity; try discriminate; try congruence.
  - apply Z.eqb_eq in H. now subst.
  - inversion H. apply Z.eqb_refl.
  - apply Z.eqb_eq in H. now subst.
  - inversion H. apply Z.eqb_refl.
Qed.

Lemma VALUE_eqb_neq (a b : VALUE) : VALUE_eqb a b = false <-> a <> b.
Proof.
  split.
  - intros H E. apply VALUE_eqb_eq in E. congruence.
  - intro H. destruct (VALUE_eqb a b) eqn:E; [|reflexivity].
    apply VALUE_eqb_eq in E. contradiction.
Qed.

Lemma to_int_small (z : Z) : - 2 ^ 31 <= z < 2 ^ 31 -> to_int z = z.
Proof.
  intro H. unfold to_int. rewrite Z.mod_small; lia.
Qed.

Lemma long_bits_cases (b : build) : long_bits b = 32 \/ long_bits b = 64.
Proof. unfold long_bits. destruct (long b); auto. Qed.

Lemma to_long_small (b : build) (z : Z) : - 2 ^ 31 <= z < 2 ^ 31 -> to_long b z = z.
Proof.
  intro H. unfold to_long.
  destruct (long_bits_cases b) as [-> | ->]; simpl Z.sub; rewrite Z.mod_small; lia.
Qed.

(** Where no operand is negative and nothing overflows, the C types agree
    with the integers. *)
Lemma fast16_arith_small (b : build) (z : Z) :
  0 <= z < 2 ^ 31 -> fast16_arith b z = z.
Proof.
  intro H. unfold fast16_arith. destruct (uint_fast16_t b).
  - apply to_int_small. lia.
  - apply Z.mod_small. lia.
  - destruct (long_bits_cases b) as [-> | ->]; apply Z.mod_small; lia.
Qed.

(** When [uint_fast16_t] is a 16-bit type the difference is the signed one. *)
Lemma fast16_arith_short (b : build) (z : Z) :
  uint_fast16_t b = Fast16_short -> - 2 ^ 31 <= z < 2 ^ 31 -> fast16_arith b z = z.
Proof.
  intros E H. unfold fast16_arith. rewrite E. now apply to_int_small.
Qed.

Lemma ARY_MAX_SIZE_large (b : build) : 2 ^ 16 <= ARY_MAX_SIZE b.
Proof.
  unfold ARY_MAX_SIZE. destruct (long_bits_cases b) as [-> | ->]; now vm_compute.
Qed.

Lemma rb_ary_new2_accepts (b : build) (capa : Z) :
  0 <= capa <= 2 ^ 16 -> rb_ary_new2 b capa = true.
Proof.
  intro H. unfold rb_ary_new2. rewrite to_long_small by lia.
  pose proof (ARY_MAX_SIZE_large b). apply andb_true_iff. split; lia.
Qed.

Lemma ATOMIC_STORE_INT16_small (z : Z) :
  0 <= z < 2 ^ 16 -> ATOMIC_STORE_INT16 z = Z.to_N z.
Proof. intro H. unfold ATOMIC_STORE_INT16. now rewrite Z.mod_small. Qed.

Lemma ATOMIC_STORE_INT16_range (z : Z) : (ATOMIC_STORE_INT16 z < 2 ^ 16)%N.
Proof.
  unfold ATOMIC_STORE_INT16.
  pose proof (Z.mod_pos_bound z (2 ^ 16) ltac:(lia)). lia.
Qed.

Lemma ATOMIC_STORE_INT16_of_N (n : N) :
  (n < 2 ^ 16)%N -> ATOMIC_STORE_INT16 (Z.of_N n) = n.
Proof. intro H. rewrite ATOMIC_STORE_INT16_small; lia. Qed.

(** An addition that does not leave the type is the addition. *)
Lemma ATOMIC_ADD_succ (bits : Z) (var : N) :
  0 <= bits -> Z.of_N var + 1 < 2 ^ bits -> ATOMIC_ADD bits var 1 = (var + 1)%N.
Proof.
  intros Hb H. unfold ATOMIC_ADD. rewrite Z.mod_small; lia.
Qed.

Lemma rb_profile_frames_count_range (rt : runtime) :
  0 <= rb_profile_frames_count rt BUF_SIZE <= BUF_SIZE.
Proof. unfold rb_profile_frames_count, BUF_SIZE. lia. Qed.

(** ** The deferred capture *)

Lemma scout_record_sample_disabled (b : build) (rt : runtime) (s : thread_vars) :
  _ok_to_sample s = false -> scout_record_sample b rt s = s.
Proof.
  intro H. unfold scout_record_sample, ATOMIC_LOAD. now rewrite H.
Qed.

Lemma scout_record_sample_during_gc (b : build) (rt : runtime) (s : thread_vars) :
  _ok_to_sample s = true -> rb_during_gc rt = true ->
  scout_record_sample b rt s =
    set_skipped_in_gc (ATOMIC_ADD 32 (_skipped_in_gc s) 1) s.
Proof.
  intros H G. unfold scout_record_sample, ATOMIC_LOAD. now rewrite H, G.
Qed.

(** Past the entry checks the routine ends with the store to
    [_job_registered]. *)
Lemma scout_record_sample_proceeds (b : build) (rt : runtime) (s : thread_vars) :
  capture_proceeds rt s ->
  _job_registered (scout_record_sample b rt s) = false.
Proof.
  intros (Hok & Hgc & Hth). unfold scout_record_sample, ATOMIC_LOAD.
  rewrite Hok, Hgc. apply VALUE_eqb_eq in Hth. rewrite Hth. reflexivity.
Qed.

(** C1, at an input where it fails.  On 64-bit Linux: install, start
    sampling, let the timer fire once (the handler queues the job and sets
    [_job_registered]), then let the job run while the collector is active.
    The job counts the sample as skipped and returns with [_job_registered]
    still true; the next interrupt sees the flag set and queues nothing. *)
Theorem record_sample_during_gc_keeps_job_registered :
  let m := run glibc_x86_64
             [(quiet [], Stacks.install);
              (quiet [], Stacks.start_sampling);
              (quiet (frames 10), Stacks.SIGALRM)]
             (machine_initial blank_memory) in
  let s' := scout_record_sample glibc_x86_64 (collecting (frames 10)) (thread m) in
  _ok_to_sample (thread m) = true
  /\ _job_registered (thread m) = true
  /\ _job_registered s' = true
  /\ _skipped_in_gc s' = 1%N
  /\ scout_profile_broadcast_signal_handler (quiet (frames 10)) s' = s'.
Proof. vm_compute. repeat split. Qed.

(** C3, at an input where it fails.  On 64-bit Linux [uint_fast16_t] is
    [unsigned long], so [num_frames - start_frame_index] is computed modulo
    2^64.  With the start frame index at 11 and a stack of 10 frames the
    difference -1 is read as 2^64 - 1, which is above 2: the sample is
    stored with -3 lines and counted. *)
Theorem record_sample_below_start_frame_is_counted :
  let m := run glibc_x86_64
             [(quiet [], Stacks.start_sampling);
              (quiet [], Stacks.update_indexes (Fixnum 11) (Fixnum 0))]
             (machine_initial blank_memory) in
  let s' := scout_record_sample glibc_x86_64 (quiet (frames 10)) (thread m) in
  capture_proceeds (quiet (frames 10)) (thread m)
  /\ rb_profile_frames_count (quiet (frames 10)) BUF_SIZE
     - Z.of_N (_start_frame_index (thread m)) = -1
  /\ _cur_traces_num (thread m) = 0%N
  /\ _cur_traces_num s' = 1%N
  /\ num_tracelines (_traces s' 0%N) = -3.
Proof. vm_compute. repeat split. Qed.

(** Where the start frame index is not above the number of frames
    returned, the capture does what the rule with n = frames returned minus
    start frame index says, on every target: above 2 the trace at the top of
    the buffer gets n - 2 lines and the top moves up by one; otherwise
    neither the top nor a skip counter changes. *)
Theorem record_sample_counts (b : build) (rt : runtime) (s : thread_vars) :
  capture_proceeds rt s ->
  Z.of_N (_cur_traces_num s) < MAX_TRACES ->
  Z.of_N (_start_frame_index s) <= rb_profile_frames_count rt BUF_SIZE ->
  let n := rb_profile_frames_count rt BUF_SIZE - Z.of_N (_start_frame_index s) in
  let s' := scout_record_sample b rt s in
  (2 < n ->
     num_tracelines (_traces s' (_cur_traces_num s)) = n - 2
     /\ _cur_traces_num s' = (_cur_traces_num s + 1)%N)
  /\ (n <= 2 ->
     _cur_traces_num s' = _cur_traces_num s
     /\ skip_counters s' = skip_counters s).
Proof.
  intros (Hok & Hgc & Hth) Hcur Hsfi n s'.
  pose proof (rb_profile_frames_count_range rt) as Hnf.
  assert (Hn : 0 <= n <= 512) by (unfold n, BUF_SIZE in *; lia).
  subst s'. unfold scout_record_sample, ATOMIC_LOAD.
  rewrite Hok, Hgc. apply VALUE_eqb_eq in Hth. rewrite Hth. simpl negb. cbv iota.
  apply Z.ltb_lt in Hcur. rewrite Hcur. apply Z.ltb_lt in Hcur.
  fold n. rewrite (fast16_arith_small b n) by lia.
  split; intro H.
  - assert (E : (n >? 2) = true) by lia. rewrite E.
    rewrite (fast16_arith_small b (n - 2)) by lia.
    rewrite to_int_small by lia.
    split.
    + simpl. unfold trace_store. rewrite N.eqb_refl. reflexivity.
    + simpl. apply ATOMIC_ADD_succ; unfold MAX_TRACES in *; lia.
  - assert (E : (n >? 2) = false) by lia. rewrite E.
    split; reflexivity.
Qed.

Lemma record_sample_counts_witness :
  let s := thread (run glibc_x86_64 [(quiet [], Stacks.start_sampling)]
                     (machine_initial blank_memory)) in
  let s' := scout_record_sample glibc_x86_64 (quiet (frames 10)) s in
  num_tracelines (_traces s' 0%N) = 8 /\ _cur_traces_num s' = 1%N.
Proof.
  refine (proj1 (record_sample_counts glibc_x86_64 (quiet (frames 10))
            (thread (run glibc_x86_64 [(quiet [], Stacks.start_sampling)]
                       (machine_initial blank_memory))) _ _ _) _).
  - vm_compute. repeat split.
  - vm_compute. reflexivity.
  - vm_compute. discriminate.
  - vm_compute. reflexivity.
Defined.

(** Where [uint_fast16_t] is a 16-bit type the difference is signed, and
    the rule holds for every start frame index, above the number of frames
    returned too. *)
Theorem record_sample_counts_short (b : build) (rt : runtime) (s : thread_vars) :
  uint_fast16_t b = Fast16_short ->
  capture_proceeds rt s ->
  Z.of_N (_cur_traces_num s) < MAX_TRACES ->
  Z.of_N (_start_frame_index s) < 2 ^ 16 ->
  let n := rb_profile_frames_count rt BUF_SIZE - Z.of_N (_start_frame_index s) in
  let s' := scout_record_sample b rt s in
  (2 < n ->
     num_tracelines (_traces s' (_cur_traces_num s)) = n - 2
     /\ _cur_traces_num s' = (_cur_traces_num s + 1)%N)
  /\ (n <= 2 ->
     _cur_traces_num s' = _cur_traces_num s
     /\ skip_counters s' = skip_counters s).
Proof.
  intros Hb (Hok & Hgc & Hth) Hcur Hsfi n s'.
  pose proof (rb_profile_frames_count_range rt) as Hnf.
  assert (Hn : - 2 ^ 16 <= n <= 512) by (unfold n, BUF_SIZE in *; lia).
  subst s'. unfold scout_record_sample, ATOMIC_LOAD.
  rewrite Hok, Hgc. apply VALUE_eqb_eq in Hth. rewrite Hth. simpl negb. cbv iota.
  apply Z.ltb_lt in Hcur. rewrite Hcur. apply Z.ltb_lt in Hcur.
  fold n. rewrite (fast16_arith_short b n) by (assumption || lia).
  split; intro H.
  - assert (E : (n >? 2) = true) by lia. rewrite E.
    rewrite (fast16_arith_short b (n - 2)) by (assumption || lia).
    rewrite to_int_small by lia.
    split.
    + simpl. unfold trace_store. rewrite N.eqb_refl. reflexivity.
    + simpl. apply ATOMIC_ADD_succ; unfold MAX_TRACES in *; lia.
  - assert (E : (n >? 2) = false) by lia. rewrite E.
    split; reflexivity.
Qed.

Lemma record_sample_counts_short_witness :
  let s := thread (run darwin
                     [(quiet [], Stacks.start_sampling);
                      (quiet [], Stacks.update_indexes (Fixnum 11) (Fixnum 0))]
                     (machine_initial blank_memory)) in
  let s' := scout_record_sample darwin (quiet (frames 10)) s in
  _cur_traces_num s' = _cur_traces_num s /\ skip_counters s' = skip_counters s.
Proof.
  refine (proj2 (record_sample_counts_short darwin (quiet (frames 10))
            (thread (run darwin
                       [(quiet [], Stacks.start_sampling);
                        (quiet [], Stacks.update_indexes (Fixnum 11) (Fixnum 0))]
                       (machine_initial blank_memory))) _ _ _ _) _).
  - reflexivity.
  - vm_compute. repeat split.
  - vm_compute. reflexivity.
  - vm_compute. reflexivity.
  - vm_compute. discriminate.
Defined.

Lemma scout_record_sample_proceeds_witness :
  let s := thread (run glibc_x86_64
                     [(quiet [], Stacks.install);
                      (quiet [], Stacks.start_sampling);
                      (quiet (frames 10), Stacks.SIGALRM)]
                     (machine_initial blank_memory)) in
  _job_registered s = true
  /\ _job_registered (scout_record_sample glibc_x86_64 (quiet (frames 10)) s) = false.
Proof.
  split; [reflexivity|].
  apply scout_record_sample_proceeds. vm_compute. repeat split.
Defined.

(** Five captures of a stack of ten frames with the start frame index at 0
    leave five traces of eight lines each. *)
Lemma five_captures_of_ten_frames (b : build) :
  let capture := (quiet (frames 10), Stacks.postponed_job) in
  let m := run b
             [(quiet [], Stacks.start_sampling);
              capture; capture; capture; capture; capture]
             (machine_initial blank_memory) in
  rb_scout_current_trace_index (thread m) = INT2NUM 5
  /\ map (fun i => num_tracelines (_traces (thread m) i)) [0; 1; 2; 3; 4]%N
     = [8; 8; 8; 8; 8].
Proof. destruct b as [[] [] [] v]; vm_compute; split; reflexivity. Qed.

(** ** The interrupt handler *)

(** C2.  One invocation of the handler.  With sampling disabled the state
    is returned as it was.  With the handler already running only
    [_skipped_in_signal_handler] is incremented.  Otherwise the handler
    passes through a state in which [_in_signal_handler] is true and ends
    with it false, and the state it leaves differs from the one it found in
    exactly one place: [_skipped_in_gc] incremented during a collection,
    [_skipped_in_not_running] incremented when another thread runs,
    [_job_registered] set when the job was queued (result 1 or 2),
    [_skipped_in_job_registered] incremented when it was refused, and
    nothing when a job was registered already.  The counters are 32-bit:
    an increment is [ATOMIC_ADD 32 _ 1]. *)
Theorem signal_handler_cases (rt : runtime) (s : thread_vars) :
  let s' := scout_profile_broadcast_signal_handler rt s in
  let queued := rb_postponed_job_register rt = 1 \/ rb_postponed_job_register rt = 2 in
  (_ok_to_sample s = false -> s' = s)
  /\ (_ok_to_sample s = true -> _in_signal_handler s = true ->
      s' = set_skipped_in_signal_handler
             (ATOMIC_ADD 32 (_skipped_in_signal_handler s) 1) s)
  /\ (_ok_to_sample s = true -> _in_signal_handler s = false ->
      (exists mid, _in_signal_handler mid = true
                   /\ s' = set_in_signal_handler false mid)
      /\ _in_signal_handler s' = false
      /\ (rb_during_gc rt = true ->
          s' = set_skipped_in_gc (ATOMIC_ADD 32 (_skipped_in_gc s) 1) s)
      /\ (rb_during_gc rt = false -> rb_thread_current rt <> _ruby_thread s ->
          s' = set_skipped_in_not_running
                 (ATOMIC_ADD 32 (_skipped_in_not_running s) 1) s)
      /\ (rb_during_gc rt = false -> rb_thread_current rt = _ruby_thread s ->
          _job_registered s = false -> ~ queued ->
          s' = set_skipped_in_job_registered
                 (ATOMIC_ADD 32 (_skipped_in_job_registered s) 1) s)
      /\ (rb_during_gc rt = false -> rb_thread_current rt = _ruby_thread s ->
          _job_registered s = false -> queued ->
          s' = set_job_registered true s)
      /\ (rb_during_gc rt = false -> rb_thread_current rt = _ruby_thread s ->
          _job_registered s = true ->
          s' = s)).
Proof.
  intros s' queued. subst s' queued.
  unfold scout_profile_broadcast_signal_handler, ATOMIC_LOAD, ATOMIC_STORE_BOOL.
  split; [|split].
  - intros ->. reflexivity.
  - intros -> ->. reflexivity.
  - intros Hok Hin. rewrite Hok, Hin. cbn [negb].
    split; [|split].
    + eexists. split; [|reflexivity].
      destruct (rb_during_gc rt); [reflexivity|].
      destruct (negb (VALUE_eqb _ _)); [reflexivity|].
      destruct (negb (_job_registered _)); [|reflexivity].
      destruct (_ || _); reflexivity.
    + reflexivity.
    + destruct s; cbn in *; subst.
      repeat split.
      * intros ->. reflexivity.
      * intros -> Hth. apply VALUE_eqb_neq in Hth. rewrite Hth. reflexivity.
      * intros -> Hth -> Hq. apply VALUE_eqb_eq in Hth. rewrite Hth. cbn.
        destruct (rb_postponed_job_register rt =? 1) eqn:E1; [lia|].
        destruct (rb_postponed_job_register rt =? 2) eqn:E2; [lia|].
        reflexivity.
      * intros -> Hth -> Hq. apply VALUE_eqb_eq in Hth. rewrite Hth. cbn.
        assert (E : (rb_postponed_job_register rt =? 1)
                    || (rb_postponed_job_register rt =? 2) = true).
        { apply orb_true_iff. lia. }
        rewrite E. reflexivity.
      * intros -> Hth ->. apply VALUE_eqb_eq in Hth. rewrite Hth. reflexivity.
Qed.

Lemma signal_handler_cases_witness :
  let s := thread (run glibc_x86_64 [(quiet [], Stacks.start_sampling)]
                     (machine_initial blank_memory)) in
  scout_profile_broadcast_signal_handler (quiet (frames 10)) s
  = set_job_registered true s
  /\ scout_profile_broadcast_signal_handler (collecting (frames 10)) s
     = set_skipped_in_gc 1%N s.
Proof.
  intro s. split.
  - destruct (signal_handler_cases (quiet (frames 10)) s) as (_ & _ & H).
    destruct (H eq_refl eq_refl) as (_ & _ & _ & _ & _ & Hq & _).
    apply Hq; try reflexivity. now left.
  - destruct (signal_handler_cases (collecting (frames 10)) s) as (_ & _ & H).
    destruct (H eq_refl eq_refl) as (_ & _ & Hgc & _).
    exact (Hgc eq_refl).
Defined.

(** ** Registration *)

Lemma init_thread_vars_fields (b : build) (rt : runtime) (s : thread_vars) :
  let s' := init_thread_vars b rt s in
  _ok_to_sample s' = false
  /\ _in_signal_handler s' = false
  /\ _start_frame_index s' = 0%N
  /\ _start_trace_index s' = 0%N
  /\ _cur_traces_num s' = 0%N
  /\ _ruby_thread s' = rb_thread_current rt
  /\ _thread_registered s' = _thread_registered s
  /\ _job_registered s' = _job_registered s
  /\ skip_counters s' = skip_counters s.
Proof.
  unfold init_thread_vars.
  destruct (negb (pthread_atfork rt =? 0)), (linux b), (timer_create rt =? -1);
    cbn; repeat split.
Qed.

(** What registering does in any state.  It returns true.  On a thread
    that is registered it changes nothing.  On a thread that is not, it sets
    [_ok_to_sample] and [_in_signal_handler] to false and the two start
    indices and the number of traces to 0, records the running thread in
    [_ruby_thread] and marks the thread registered; it stores nothing to
    [_job_registered] and to the four skip counters, which are false and 0
    when the thread has its initial state. *)
Theorem add_profiled_thread_initialises
  (b : build) (rt : runtime) (s : thread_vars) :
  let s' := snd (rb_scout_add_profiled_thread b rt s) in
  fst (rb_scout_add_profiled_thread b rt s) = Qtrue
  /\ (_thread_registered s = true -> s' = s)
  /\ (_thread_registered s = false ->
      _thread_registered s' = true
      /\ _ok_to_sample s' = false
      /\ _in_signal_handler s' = false
      /\ _start_frame_index s' = 0%N
      /\ _start_trace_index s' = 0%N
      /\ _cur_traces_num s' = 0%N
      /\ _ruby_thread s' = rb_thread_current rt
      /\ _job_registered s' = _job_registered s
      /\ skip_counters s' = skip_counters s)
  /\ (forall mem,
      let s0 := snd (rb_scout_add_profiled_thread b rt (thread_initial mem)) in
      _job_registered s0 = false /\ skip_counters s0 = (0, 0, 0, 0)%N).
Proof.
  cbv zeta. unfold rb_scout_add_profiled_thread, scout_add_profiled_thread, ATOMIC_LOAD.
  split; [reflexivity|]. split; [|split].
  - intros ->. reflexivity.
  - intros ->. cbn [snd].
    destruct (init_thread_vars_fields b rt s) as (H1 & H2 & H3 & H4 & H5 & H6 & _ & H8 & H9).
    repeat split; assumption.
  - intro mem. cbn [thread_initial _thread_registered snd].
    destruct (init_thread_vars_fields b rt (thread_initial mem))
      as (_ & _ & _ & _ & _ & _ & _ & H8 & H9).
    split; [exact H8 | exact H9].
Qed.

Lemma add_profiled_thread_initialises_witness :
  let s := snd (rb_scout_add_profiled_thread darwin (quiet [])
                  (thread_initial blank_memory)) in
  _thread_registered s = true
  /\ _ruby_thread s = main_thread
  /\ snd (rb_scout_add_profiled_thread darwin (quiet []) s) = s.
Proof.
  intro s.
  destruct (add_profiled_thread_initialises darwin (quiet [])
              (thread_initial blank_memory)) as (_ & _ & H & _).
  destruct (H eq_refl) as (H1 & _ & _ & _ & _ & _ & H7 & _).
  split; [exact H1|]. split; [exact H7|].
  destruct (add_profiled_thread_initialises darwin (quiet []) s) as (_ & H' & _).
  exact (H' H1).
Defined.

(** ** Stopping *)

Lemma scout_stop_thread_timer_cases (b : build) (rt : runtime) (s : thread_vars) :
  scout_stop_thread_timer b rt s = s
  \/ scout_stop_thread_timer b rt s = set_timer_armed false s
  \/ scout_stop_thread_timer b rt s = log (Timer_set_failed (errno rt)) s.
Proof.
  unfold scout_stop_thread_timer.
  destruct (negb _), (linux b), (timer_settime rt =? -1); auto.
Qed.

(** C8.  After stop_sampling (true): sampling is disabled; the two start
    indices and the number of traces are 0, so current_trace_index returns
    0; the four skip counters are 0 and their readers return 0. *)
Theorem stop_sampling_reset (b : build) (rt : runtime) (s : thread_vars) :
  let s' := snd (rb_scout_stop_sampling b rt Qtrue s) in
  fst (rb_scout_stop_sampling b rt Qtrue s) = Qtrue
  /\ _ok_to_sample s' = false
  /\ _start_frame_index s' = 0%N
  /\ _start_trace_index s' = 0%N
  /\ _cur_traces_num s' = 0%N
  /\ rb_scout_current_trace_index s' = INT2NUM 0
  /\ skip_counters s' = (0, 0, 0, 0)%N
  /\ rb_scout_skipped_in_gc s' = INT2NUM 0
  /\ rb_scout_skipped_in_handler s' = INT2NUM 0
  /\ rb_scout_skipped_in_job_registered s' = INT2NUM 0
  /\ rb_scout_skipped_in_not_running s' = INT2NUM 0.
Proof.
  cbv zeta. unfold rb_scout_stop_sampling. cbn [TYPE ruby_type_eqb fst snd].
  repeat split.
Qed.

(** C10.  After stop_sampling with an argument that is not true, the state
    is the one before with [_ok_to_sample] false and, where the thread was
    sampling on Linux, the timer disarmed or the failure to disarm it
    written to the diagnostic stream.  Every other variable of the thread
    has the value it had. *)
Theorem stop_sampling_keeps_state
  (b : build) (rt : runtime) (reset : VALUE) (s : thread_vars) :
  TYPE rt reset <> T_TRUE ->
  let s' := snd (rb_scout_stop_sampling b rt reset s) in
  (s' = set_ok_to_sample false s
   \/ s' = set_ok_to_sample false (set_timer_armed false s)
   \/ s' = set_ok_to_sample false (log (Timer_set_failed (errno rt)) s))
  /\ _ok_to_sample s' = false
  /\ _cur_traces_num s' = _cur_traces_num s
  /\ _start_frame_index s' = _start_frame_index s
  /\ _start_trace_index s' = _start_trace_index s
  /\ _job_registered s' = _job_registered s
  /\ _in_signal_handler s' = _in_signal_handler s
  /\ skip_counters s' = skip_counters s
  /\ _thread_registered s' = _thread_registered s
  /\ _ruby_thread s' = _ruby_thread s
  /\ _traces s' = _traces s.
Proof.
  intros Hreset s'. subst s'. unfold rb_scout_stop_sampling.
  assert (E : ruby_type_eqb (TYPE rt reset) T_TRUE = false).
  { destruct (TYPE rt reset); try reflexivity. now elim Hreset. }
  rewrite E. cbn [snd]. unfold ATOMIC_LOAD, ATOMIC_STORE_BOOL.
  destruct (_ok_to_sample s); [destruct (linux b)|].
  - destruct (scout_stop_thread_timer_cases b rt s) as [-> | [-> | ->]];
      repeat split; auto.
  - repeat split; auto.
  - repeat split; auto.
Qed.

Lemma stop_sampling_keeps_state_witness :
  let s := thread (run glibc_x86_64
                     [(quiet [], Stacks.start_sampling);
                      (quiet (frames 10), Stacks.postponed_job)]
                     (machine_initial blank_memory)) in
  let s' := snd (rb_scout_stop_sampling glibc_x86_64 (quiet []) Qfalse s) in
  _ok_to_sample s = true /\ _ok_to_sample s' = false
  /\ _cur_traces_num s' = _cur_traces_num s.
Proof.
  cbv zeta. split; [reflexivity|].
  pose proof (stop_sampling_keeps_state glibc_x86_64 (quiet []) Qfalse
                (thread (run glibc_x86_64
                           [(quiet [], Stacks.start_sampling);
                            (quiet (frames 10), Stacks.postponed_job)]
                           (machine_initial blank_memory)))
                ltac:(discriminate)) as H.
  cbv zeta in H. destruct H as (_ & H1 & H2 & _). split; [exact H1 | exact H2].
Defined.

(** ** Installation *)

Lemma rb_scout_install_profiling_again (b : build) (g : global_vars) :
  scout_profiling_installed g <> 0 ->
  rb_scout_install_profiling b g = (Qfalse, g).
Proof.
  intro H. unfold rb_scout_install_profiling.
  destruct (scout_profiling_installed g =? 0) eqn:E; [lia | reflexivity].
Qed.

(** No event changes the flag once it is set. *)
Lemma step_keeps_installed (b : build) (rt : runtime) (c : Stacks.call) (m : machine) :
  scout_profiling_installed (globals m) <> 0 ->
  scout_profiling_installed (globals (step b rt c m))
  = scout_profiling_installed (globals m).
Proof.
  intro H. destruct c; cbn [step on_globals on_thread globals]; try reflexivity.
  - now rewrite rb_scout_install_profiling_again.
  - unfold rb_scout_start_profiling.
    destruct (negb (scout_profiling_running (globals m) =? 0)); reflexivity.
  - destruct (sigalrm_handler (globals m)); reflexivity.
Qed.

Lemma run_keeps_installed (b : build) (l : list (runtime * Stacks.call)) (m : machine) :
  scout_profiling_installed (globals m) <> 0 ->
  scout_profiling_installed (globals (run b l m))
  = scout_profiling_installed (globals m).
Proof.
  revert m. induction l as [|[rt c] l IH]; intros m H; cbn [run]; [reflexivity|].
  rewrite IH; rewrite step_keeps_installed; auto.
Qed.

(** C9.  Where the flag is not set, install returns true and sets it.
    From then on, whatever happens to the thread (any history [l] of calls,
    interrupts and jobs, uninstall among them), the flag stays set and
    install returns false and leaves the global variables as they are.
    uninstall returns nil and changes nothing. *)
Theorem install_once (b : build) (g : global_vars) :
  scout_profiling_installed g = 0 ->
  let g1 := snd (rb_scout_install_profiling b g) in
  fst (rb_scout_install_profiling b g) = Qtrue
  /\ scout_profiling_installed g1 = 1
  /\ (forall (l : list (runtime * Stacks.call)) (s : thread_vars),
      let m := run b l {| globals := g1; thread := s |} in
      scout_profiling_installed (globals m) = 1
      /\ rb_scout_install_profiling b (globals m) = (Qfalse, globals m))
  /\ (forall g', rb_scout_uninstall_profiling g' = (Qnil, g'))
  /\ (forall rt m, step b rt Stacks.uninstall m = m).
Proof.
  intros H g1.
  assert (E1 : fst (rb_scout_install_profiling b g) = Qtrue
               /\ scout_profiling_installed g1 = 1).
  { subst g1. unfold rb_scout_install_profiling. rewrite H. split; reflexivity. }
  destruct E1 as [E0 E1].
  split; [exact E0|]. split; [exact E1|]. split; [|split].
  - intros l s m.
    assert (Hm : scout_profiling_installed (globals m) = 1).
    { subst m. rewrite run_keeps_installed; cbn [globals]; lia. }
    split; [exact Hm|]. apply rb_scout_install_profiling_again. lia.
  - reflexivity.
  - intros rt [gm sm]. reflexivity.
Qed.

Lemma install_once_witness :
  fst (rb_scout_install_profiling darwin global_initial) = Qtrue
  /\ rb_scout_install_profiling darwin
       (snd (rb_scout_install_profiling darwin global_initial))
     = (Qfalse, snd (rb_scout_install_profiling darwin global_initial)).
Proof.
  pose proof (install_once darwin global_initial eq_refl) as H.
  cbv zeta in H. destruct H as (H1 & _ & H3 & _).
  split; [exact H1|].
  exact (proj2 (H3 [] (thread_initial blank_memory))).
Defined.

(** ** Draining *)

(** The loop over the lines of a trace keeps the frames of the valid type
    and reports the others. *)
Lemma lines_loop_spec (b : build) (rt : runtime) (t : c_trace) (count : nat) :
  forall (n : Z) (trace : list (VALUE * VALUE)) (err : list diag),
  lines_loop b rt t count n trace err =
    (trace ++ map (fun n => (frames_buf t n, INT2FIX (lines_buf t n)))
                (filter (valid_frame b rt t) (Zrange n count)),
     err ++ map (fun n => Non_data_frame (TYPE rt (frames_buf t n)))
              (filter (fun n => negb (valid_frame b rt t n)) (Zrange n count))).
Proof.
  induction count as [|count IH]; intros n trace err; cbn [lines_loop Zrange filter].
  - now rewrite !app_nil_r.
  - destruct (valid_frame b rt t n); cbn [negb map]; rewrite IH, <- app_assoc;
      reflexivity.
Qed.

(** The loop over the slots, where no stored trace is longer than the
    buffers: no array is refused, the slots with lines are returned in
    order. *)
Lemma traces_loop_spec (b : build) (rt : runtime) (tr : N -> c_trace) (count : nat) :
  forall (i : N) (traces : list (list (VALUE * VALUE))) (err : list diag),
  (forall j, In j (Nrange i count) -> num_tracelines (tr j) <= BUF_SIZE) ->
  traces_loop b rt tr count i traces err =
    (Some (traces ++ map (fun j => accepted_lines b rt (tr j))
                       (filter (fun j => 0 <? num_tracelines (tr j)) (Nrange i count))),
     err ++ flat_map (fun j => rejected_frames b rt (tr j))
              (filter (fun j => 0 <? num_tracelines (tr j)) (Nrange i count))).
Proof.
  induction count as [|count IH]; intros i traces err Hlen;
    cbn [traces_loop Nrange filter].
  - now rewrite !app_nil_r.
  - assert (Hi : num_tracelines (tr i) <= BUF_SIZE) by (apply Hlen; now left).
    assert (Hrest : forall j, In j (Nrange (i + 1) count) ->
                              num_tracelines (tr j) <= BUF_SIZE)
      by (intros j Hj; apply Hlen; now right).
    destruct (num_tracelines (tr i) >? 0) eqn:E.
    + assert (E' : (0 <? num_tracelines (tr i)) = true) by lia. rewrite E'.
      rewrite rb_ary_new2_accepts by (unfold BUF_SIZE in Hi; lia).
      rewrite lines_loop_spec. cbn [app map flat_map].
      rewrite IH by exact Hrest. rewrite <- !app_assoc. reflexivity.
    + assert (E' : (0 <? num_tracelines (tr i)) = false) by lia. rewrite E'.
      apply IH. exact Hrest.
Qed.

(** C5, as the code has it.  On a registered thread whose number of traces
    is at most [MAX_TRACES], whose trim point is not above it and whose
    pending traces are no longer than the buffers, the call returns, in
    order, the pending traces that have lines, each as the pairs whose frame
    has the type of a frame (the other frames are reported on the
    diagnostic stream), and leaves the number of traces at the trim point.
    On a thread that is not registered it writes the diagnostic, sets the
    number of traces to 0 and returns an empty array. *)
Theorem profile_frames_drains (b : build) (rt : runtime) (s : thread_vars) :
  let live := filter (has_lines s) (pending_slots s) in
  (_thread_registered s = true ->
   Z.of_N (_cur_traces_num s) <= MAX_TRACES ->
   trim_ordered s ->
   (forall i, In i (pending_slots s) -> num_tracelines (_traces s i) <= BUF_SIZE) ->
   rb_scout_profile_frames b rt s =
     (Some (map (fun i => accepted_lines b rt (_traces s i)) live),
      set_cur_traces_num (_start_trace_index s)
        (set_stderr
           (stderr s ++ flat_map (fun i => rejected_frames b rt (_traces s i)) live)
           s)))
  /\ (_thread_registered s = false ->
      rb_scout_profile_frames b rt s =
        (Some [], set_cur_traces_num 0 (log Not_profiled_thread s))).
Proof.
  intro live. split.
  - intros Hreg Hcur Hord Hlen. unfold trim_ordered in Hord.
    unfold MAX_TRACES in Hcur.
    unfold rb_scout_profile_frames, ATOMIC_LOAD. rewrite Hreg. cbn [negb].
    rewrite (ATOMIC_STORE_INT16_of_N (_start_trace_index s)) by lia.
    rewrite fast16_arith_small by lia.
    destruct (Z.of_N (_cur_traces_num s) - Z.of_N (_start_trace_index s) >? 0) eqn:E.
    + rewrite rb_ary_new2_accepts by lia.
      rewrite (traces_loop_spec b rt (_traces s)) by exact Hlen.
      reflexivity.
    + assert (Heq : _cur_traces_num s = _start_trace_index s) by lia.
      subst live. unfold pending_slots. rewrite Heq, N.sub_diag.
      cbn [N.to_nat Nrange filter map flat_map]. rewrite app_nil_r.
      reflexivity.
  - intros Hreg. unfold rb_scout_profile_frames, ATOMIC_LOAD. rewrite Hreg.
    reflexivity.
Qed.

Lemma profile_frames_drains_witness :
  let s := thread (run glibc_x86_64
                     [(quiet [], Stacks.start_sampling);
                      (quiet (frames 4), Stacks.postponed_job);
                      (quiet (frames 3), Stacks.postponed_job)]
                     (machine_initial blank_memory)) in
  fst (rb_scout_profile_frames glibc_x86_64 (quiet []) s)
  = Some [[(Object 8192, Fixnum 100); (Object 8193, Fixnum 101)];
          [(Object 8192, Fixnum 100)]].
Proof.
  intro s.
  rewrite (proj1 (profile_frames_drains glibc_x86_64 (quiet []) s)).
  - reflexivity.
  - reflexivity.
  - discriminate.
  - discriminate.
  - intros i [<- | [<- | []]]; discriminate.
Defined.

(** C5 as stated fails where a stored frame is not of the type of a frame.
    On 64-bit Linux, with a runtime whose frames are of another type: start
    sampling and capture a stack of four frames.  The trace has two lines;
    the drain returns it with none. *)
Lemma profile_frames_drops_odd_frames :
  let s := thread (run glibc_x86_64
                     [(odd_frames [], Stacks.start_sampling);
                      (odd_frames (frames 4), Stacks.postponed_job)]
                     (machine_initial blank_memory)) in
  _thread_registered s = true
  /\ every_pending_line s
     = [[(Object 8192, Fixnum 100); (Object 8193, Fixnum 101)]]
  /\ fst (rb_scout_profile_frames glibc_x86_64 (odd_frames []) s) = Some [[]]
  /\ fst (rb_scout_profile_frames glibc_x86_64 (odd_frames []) s)
     <> Some (every_pending_line s).
Proof. vm_compute. repeat split. discriminate. Qed.

(** ** What each function does to the two indices of the buffer *)

Ltac branches :=
  repeat match goal with
         | |- context [if ?c then _ else _] => destruct c
         | |- context [match ?c with Some _ => _ | None => _ end] => destruct c
         end.

Lemma timers_keep_indices (b : build) (rt : runtime) (s : thread_vars) :
  (_start_trace_index (scout_start_thread_timer b rt s) = _start_trace_index s
   /\ _cur_traces_num (scout_start_thread_timer b rt s) = _cur_traces_num s)
  /\ (_start_trace_index (scout_stop_thread_timer b rt s) = _start_trace_index s
      /\ _cur_traces_num (scout_stop_thread_timer b rt s) = _cur_traces_num s).
Proof.
  unfold scout_start_thread_timer, scout_stop_thread_timer.
  branches; cbn; auto.
Qed.

Lemma handler_keeps_indices (rt : runtime) (s : thread_vars) :
  _start_trace_index (scout_profile_broadcast_signal_handler rt s)
  = _start_trace_index s
  /\ _cur_traces_num (scout_profile_broadcast_signal_handler rt s)
     = _cur_traces_num s.
Proof.
  unfold scout_profile_broadcast_signal_handler. branches; cbn; auto.
Qed.

(** The capture moves the top up by one, below [MAX_TRACES] only. *)
Lemma record_sample_indices (b : build) (rt : runtime) (s : thread_vars) :
  let s' := scout_record_sample b rt s in
  _start_trace_index s' = _start_trace_index s
  /\ (_cur_traces_num s' = _cur_traces_num s
      \/ (Z.of_N (_cur_traces_num s) < MAX_TRACES
          /\ _cur_traces_num s' = (_cur_traces_num s + 1)%N)).
Proof.
  cbv zeta. unfold scout_record_sample, ATOMIC_LOAD.
  destruct (negb (_ok_to_sample s)); [auto|].
  destruct (rb_during_gc rt); [auto|].
  destruct (negb (VALUE_eqb _ _)); [auto|].
  destruct (Z.of_N (_cur_traces_num s) <? MAX_TRACES) eqn:E; [|auto].
  destruct (fast16_arith b _ >? 2); [|auto].
  split; [reflexivity|]. right. split; [lia|].
  cbn. apply ATOMIC_ADD_succ; unfold MAX_TRACES in *; lia.
Qed.

(** With the buffer full the capture that passes its checks changes
    neither the top nor a skip counter. *)
Lemma record_sample_full_buffer (b : build) (rt : runtime) (s : thread_vars) :
  capture_proceeds rt s ->
  MAX_TRACES <= Z.of_N (_cur_traces_num s) ->
  scout_record_sample b rt s = set_job_registered false s.
Proof.
  intros (Hok & Hgc & Hth) Hfull. unfold scout_record_sample, ATOMIC_LOAD.
  rewrite Hok, Hgc. apply VALUE_eqb_eq in Hth. rewrite Hth. cbn [negb].
  destruct (Z.of_N (_cur_traces_num s) <? MAX_TRACES) eqn:E; [lia | reflexivity].
Qed.

Lemma add_profiled_thread_indices (b : build) (rt : runtime) (s : thread_vars) :
  let s' := snd (scout_add_profiled_thread b rt s) in
  (_start_trace_index s' = _start_trace_index s
   /\ _cur_traces_num s' = _cur_traces_num s)
  \/ (_start_trace_index s' = 0%N /\ _cur_traces_num s' = 0%N).
Proof.
  cbv zeta. unfold scout_add_profiled_thread, ATOMIC_LOAD.
  destruct (_thread_registered s); [now left|right].
  cbn [snd]. destruct (init_thread_vars_fields b rt s) as (_ & _ & _ & H4 & H5 & _).
  split; assumption.
Qed.

Lemma remove_profiled_thread_indices (s : thread_vars) :
  _start_trace_index (snd (rb_scout_remove_profiled_thread s)) = _start_trace_index s
  /\ _cur_traces_num (snd (rb_scout_remove_profiled_thread s)) = _cur_traces_num s.
Proof.
  unfold rb_scout_remove_profiled_thread, remove_profiled_thread.
  destruct (negb _); cbn; auto.
Qed.

Lemma start_sampling_indices (b : build) (rt : runtime) (s : thread_vars) :
  let s' := snd (rb_scout_start_sampling b rt s) in
  (_start_trace_index s' = _start_trace_index s
   /\ _cur_traces_num s' = _cur_traces_num s)
  \/ (_start_trace_index s' = 0%N /\ _cur_traces_num s' = 0%N).
Proof.
  cbv zeta. unfold rb_scout_start_sampling. cbn [snd].
  set (s1 := set_ok_to_sample _ (snd (scout_add_profiled_thread b rt s))).
  assert (H : _start_trace_index s1
              = _start_trace_index (snd (scout_add_profiled_thread b rt s))
              /\ _cur_traces_num s1
                 = _cur_traces_num (snd (scout_add_profiled_thread b rt s)))
    by (split; reflexivity).
  destruct H as [H1 H2].
  destruct (linux b).
  - destruct (timers_keep_indices b rt s1) as [[T1 T2] _].
    rewrite T1, T2, H1, H2. apply add_profiled_thread_indices.
  - rewrite H1, H2. apply add_profiled_thread_indices.
Qed.

Lemma stop_sampling_indices (b : build) (rt : runtime) (reset : VALUE) (s : thread_vars) :
  let s' := snd (rb_scout_stop_sampling b rt reset s) in
  (_start_trace_index s' = _start_trace_index s
   /\ _cur_traces_num s' = _cur_traces_num s)
  \/ (_start_trace_index s' = 0%N /\ _cur_traces_num s' = 0%N).
Proof.
  cbv zeta. unfold rb_scout_stop_sampling.
  destruct (ruby_type_eqb (TYPE rt reset) T_TRUE); cbn [snd].
  - right. split; reflexivity.
  - left. destruct (timers_keep_indices b rt s) as [_ [T1 T2]].
    unfold ATOMIC_LOAD. destruct (_ok_to_sample s), (linux b); cbn; auto.
Qed.

Lemma update_indexes_indices (frame_index trace_index : VALUE) (s : thread_vars) :
  let s' := snd (rb_scout_update_indexes frame_index trace_index s) in
  _cur_traces_num s' = _cur_traces_num s
  /\ match NUM2INT trace_index with
     | Some t => _start_trace_index s' = ATOMIC_STORE_INT16 t
     | None => _start_trace_index s' = _start_trace_index s
     end.
Proof.
  cbv zeta. unfold rb_scout_update_indexes.
  destruct (NUM2INT trace_index); [|split; reflexivity].
  destruct (NUM2INT frame_index); split; reflexivity.
Qed.

(** A drain leaves the top where it was (a call that raised), or at the
    trim point, or at 0 when the thread is not registered. *)
Lemma profile_frames_indices (b : build) (rt : runtime) (s : thread_vars) :
  let s' := snd (rb_scout_profile_frames b rt s) in
  _start_trace_index s' = _start_trace_index s
  /\ (_cur_traces_num s' = _cur_traces_num s
      \/ _cur_traces_num s' = ATOMIC_STORE_INT16 (Z.of_N (_start_trace_index s))
      \/ (_thread_registered s = false /\ _cur_traces_num s' = 0%N)).
Proof.
  cbv zeta. unfold rb_scout_profile_frames, ATOMIC_LOAD.
  destruct (_thread_registered s); cbn [negb].
  - destruct (fast16_arith b _ >? 0); [|cbn; auto].
    destruct (rb_ary_new2 b _); [|cbn; auto].
    destruct (traces_loop _ _ _ _ _ _ _) as [[traces|] err]; cbn; auto.
  - cbn. auto.
Qed.

Lemma atfork_keeps_indices (b : build) (rt : runtime) (s : thread_vars) :
  (_start_trace_index (scout_parent_atfork_prepare b rt s) = _start_trace_index s
   /\ _cur_traces_num (scout_parent_atfork_prepare b rt s) = _cur_traces_num s)
  /\ (_start_trace_index (scout_parent_atfork_finish b rt s) = _start_trace_index s
      /\ _cur_traces_num (scout_parent_atfork_finish b rt s) = _cur_traces_num s).
Proof.
  unfold scout_parent_atfork_prepare, scout_parent_atfork_finish, ATOMIC_LOAD.
  destruct (timers_keep_indices b rt s) as [T1 T2].
  destruct (_ok_to_sample s); auto.
Qed.

(** ** The trim point and the top of the buffer *)

(** C6, as the code has it.  From a state in which the trim point is not
    above the top of the buffer (a 16-bit count), every event keeps it so,
    except an update_indexes whose trace index is above the top, and a drain
    on a thread that is not registered while the trim point is not 0
    ([keeps_trim_order] excludes the two). *)
Theorem trim_order_kept (b : build) (rt : runtime) (c : Stacks.call) (m : machine) :
  (_cur_traces_num (thread m) < 2 ^ 16)%N ->
  trim_ordered (thread m) ->
  keeps_trim_order c (thread m) = true ->
  trim_ordered (thread (step b rt c m))
  /\ (_cur_traces_num (thread (step b rt c m)) < 2 ^ 16)%N.
Proof.
  unfold trim_ordered. destruct m as [g s]. cbn [thread]. intros Hcur Hord Hc.
  destruct c; cbn [step on_globals on_thread thread globals]; try (split; assumption).
  - (* add_profiled_thread *)
    unfold rb_scout_add_profiled_thread. cbn [snd].
    destruct (add_profiled_thread_indices b rt s) as [[-> ->] | [-> ->]]; lia.
  - (* remove_profiled_thread *)
    destruct (remove_profiled_thread_indices s) as [-> ->]. lia.
  - (* profile_frames *)
    destruct (profile_frames_indices b rt s) as [-> [-> | [-> | [Hreg ->]]]].
    + lia.
    + rewrite ATOMIC_STORE_INT16_of_N; lia.
    + cbn [keeps_trim_order] in Hc. rewrite Hreg in Hc. cbn [orb] in Hc.
      apply N.eqb_eq in Hc. lia.
  - (* start_sampling *)
    destruct (start_sampling_indices b rt s) as [[-> ->] | [-> ->]]; lia.
  - (* stop_sampling *)
    destruct (stop_sampling_indices b rt reset s) as [[-> ->] | [-> ->]]; lia.
  - (* update_indexes *)
    destruct (update_indexes_indices frame_index trace_index s) as [-> Hs].
    cbn [keeps_trim_order] in Hc.
    destruct (NUM2INT trace_index); rewrite Hs; [|lia].
    apply N.leb_le in Hc. lia.
  - (* SIGALRM *)
    destruct (sigalrm_handler g); cbn [on_thread thread]; [|lia].
    destruct (handler_keeps_indices rt s) as [-> ->]. lia.
  - (* postponed_job *)
    destruct (record_sample_indices b rt s) as [-> [-> | [Hlt ->]]];
      unfold MAX_TRACES in *; lia.
  - (* atfork_prepare *)
    destruct (atfork_keeps_indices b rt s) as [[-> ->] _]. lia.
  - (* atfork_parent *)
    destruct (atfork_keeps_indices b rt s) as [_ [-> ->]]. lia.
Qed.

Lemma trim_order_kept_witness :
  let m := run glibc_x86_64
             [(quiet [], Stacks.start_sampling);
              (quiet (frames 10), Stacks.postponed_job);
              (quiet (frames 10), Stacks.postponed_job)]
             (machine_initial blank_memory) in
  trim_ordered
    (thread (step glibc_x86_64 (quiet [])
               (Stacks.update_indexes (Fixnum 0) (Fixnum 2)) m)).
Proof.
  refine (proj1 (trim_order_kept glibc_x86_64 (quiet [])
                   (Stacks.update_indexes (Fixnum 0) (Fixnum 2)) _ _ _ _)).
  - reflexivity.
  - discriminate.
  - reflexivity.
Defined.

(** C6 as stated fails: update_indexes stores the trace index it is given.
    On a thread that has just registered, [update_indexes (0, 5)] puts the
    trim point at 5 while the buffer holds no trace. *)
Lemma update_indexes_breaks_trim_order :
  let m := run glibc_x86_64 [(quiet [], Stacks.add_profiled_thread)]
             (machine_initial blank_memory) in
  let m' := step glibc_x86_64 (quiet [])
              (Stacks.update_indexes (Fixnum 0) (Fixnum 5)) m in
  trim_ordered (thread m)
  /\ _start_trace_index (thread m') = 5%N
  /\ _cur_traces_num (thread m') = 0%N
  /\ ~ trim_ordered (thread m').
Proof.
  cbv zeta. split; [discriminate|]. split; [reflexivity|]. split; [reflexivity|].
  intro H. now apply H.
Qed.

(** ** The bound of the buffer *)

Lemma step_inside_buffer (b : build) (rt : runtime) (c : Stacks.call) (m : machine) :
  inside_buffer (thread m) ->
  trims_inside_buffer c = true ->
  inside_buffer (thread (step b rt c m)).
Proof.
  unfold inside_buffer, MAX_TRACES. destruct m as [g s]. cbn [thread]. intros [Hcur Hst] Hc.
  destruct c; cbn [step on_globals on_thread thread globals]; try (split; assumption).
  - unfold rb_scout_add_profiled_thread. cbn [snd].
    destruct (add_profiled_thread_indices b rt s) as [[-> ->] | [-> ->]]; lia.
  - destruct (remove_profiled_thread_indices s) as [-> ->]. lia.
  - destruct (profile_frames_indices b rt s) as [-> [-> | [-> | [Hreg ->]]]].
    + lia.
    + rewrite ATOMIC_STORE_INT16_of_N; lia.
    + lia.
  - destruct (start_sampling_indices b rt s) as [[-> ->] | [-> ->]]; lia.
  - destruct (stop_sampling_indices b rt reset s) as [[-> ->] | [-> ->]]; lia.
  - destruct (update_indexes_indices frame_index trace_index s) as [-> Hs].
    cbn [trims_inside_buffer] in Hc. unfold MAX_TRACES in Hc.
    destruct (NUM2INT trace_index); rewrite Hs; lia.
  - destruct (sigalrm_handler g); cbn [on_thread thread]; [|lia].
    destruct (handler_keeps_indices rt s) as [-> ->]. lia.
  - destruct (record_sample_indices b rt s) as [-> [-> | [Hlt ->]]];
      unfold MAX_TRACES in *; lia.
  - destruct (atfork_keeps_indices b rt s) as [[-> ->] _]. lia.
  - destruct (atfork_keeps_indices b rt s) as [_ [-> ->]]. lia.
Qed.

Lemma run_inside_buffer (b : build) (l : list (runtime * Stacks.call)) :
  forall m : machine,
  inside_buffer (thread m) ->
  forallb (fun e => trims_inside_buffer (snd e)) l = true ->
  inside_buffer (thread (run b l m)).
Proof.
  induction l as [|[rt c] l IH]; intros m Hm Hl; cbn [run]; [exact Hm|].
  cbn [forallb snd] in Hl. apply andb_true_iff in Hl. destruct Hl as [Hc Hl].
  apply IH; [|exact Hl]. now apply step_inside_buffer.
Qed.

(** C4, as the code has it.  A thread registers and then goes through any
    history of events in which no update_indexes is given a trace index
    above [MAX_TRACES]: the number of traces is at most [MAX_TRACES]
    afterwards.  And a capture that passes its entry checks while the
    buffer is full changes neither the number of traces nor a skip
    counter. *)
Theorem trace_count_inside_buffer
  (b : build) (rt0 : runtime) (l : list (runtime * Stacks.call)) (m : machine) :
  _thread_registered (thread m) = false ->
  forallb (fun e => trims_inside_buffer (snd e)) l = true ->
  let m' := run b ((rt0, Stacks.add_profiled_thread) :: l) m in
  Z.of_N (_cur_traces_num (thread m')) <= MAX_TRACES
  /\ (forall rt s,
      capture_proceeds rt s ->
      MAX_TRACES <= Z.of_N (_cur_traces_num s) ->
      _cur_traces_num (scout_record_sample b rt s) = _cur_traces_num s
      /\ skip_counters (scout_record_sample b rt s) = skip_counters s).
Proof.
  intros Hreg Hl m'. split.
  - subst m'. cbn [run]. apply run_inside_buffer; [|exact Hl].
    destruct m as [g s]. cbn [thread] in *.
    cbn [step on_thread thread]. unfold rb_scout_add_profiled_thread. cbn [snd].
    unfold scout_add_profiled_thread, ATOMIC_LOAD. rewrite Hreg. cbn [snd].
    destruct (init_thread_vars_fields b rt0 s) as (_ & _ & _ & H4 & H5 & _).
    unfold inside_buffer, MAX_TRACES.
    change (_cur_traces_num (set_thread_registered (ATOMIC_STORE_BOOL true)
                               (init_thread_vars b rt0 s)))
      with (_cur_traces_num (init_thread_vars b rt0 s)).
    change (_start_trace_index (set_thread_registered (ATOMIC_STORE_BOOL true)
                                  (init_thread_vars b rt0 s)))
      with (_start_trace_index (init_thread_vars b rt0 s)).
    rewrite H4, H5. lia.
  - intros rt s Hp Hfull. rewrite record_sample_full_buffer by assumption.
    split; reflexivity.
Qed.

Lemma trace_count_inside_buffer_witness :
  Z.of_N (_cur_traces_num
            (thread (run darwin
                       [(quiet [], Stacks.add_profiled_thread);
                        (quiet [], Stacks.start_sampling);
                        (quiet (frames 10), Stacks.postponed_job);
                        (quiet [], Stacks.update_indexes (Fixnum 0) (Fixnum 2000));
                        (quiet [], Stacks.profile_frames)]
                       (machine_initial blank_memory))))
  <= MAX_TRACES.
Proof.
  exact (proj1 (trace_count_inside_buffer darwin (quiet [])
                  [(quiet [], Stacks.start_sampling);
                   (quiet (frames 10), Stacks.postponed_job);
                   (quiet [], Stacks.update_indexes (Fixnum 0) (Fixnum 2000));
                   (quiet [], Stacks.profile_frames)]
                  (machine_initial blank_memory) eq_refl eq_refl)).
Defined.

(** C4 as stated fails twice.  Where [uint_fast16_t] is a 16-bit type
    (macOS), [cur_traces_num - start_trace_index] is a signed difference:
    after [update_indexes (0, 2001)] on a thread that has just registered
    it is negative, the drain takes the branch of the empty result and
    stores the trim point as the number of traces, 2001.  And a capture
    that finds the buffer full during a collection counts a skip. *)
Lemma drain_lifts_trace_count_over_buffer :
  let m := run darwin
             [(quiet [], Stacks.add_profiled_thread);
              (quiet [], Stacks.update_indexes (Fixnum 0) (Fixnum 2001));
              (quiet [], Stacks.profile_frames)]
             (machine_initial blank_memory) in
  let full := set_cur_traces_num 2000
                (thread (run darwin [(quiet [], Stacks.start_sampling)]
                           (machine_initial blank_memory))) in
  _cur_traces_num (thread m) = 2001%N
  /\ MAX_TRACES < Z.of_N (_cur_traces_num (thread m))
  /\ _skipped_in_gc full = 0%N
  /\ _skipped_in_gc (scout_record_sample darwin (collecting (frames 10)) full) = 1%N.
Proof. vm_compute. repeat split. Qed.

(** ** The bound of the buffer where [uint_fast16_t] is [unsigned long] *)

(** A capacity that wrapped around is negative as a [long]: [rb_ary_new2]
    raises on it. *)
Lemma rb_ary_new2_wrapped (b : build) (z : Z) :
  - 2 ^ 16 < z < 0 -> rb_ary_new2 b (z mod 2 ^ long_bits b) = false.
Proof.
  intro H. unfold rb_ary_new2, to_long.
  assert (E : (z mod 2 ^ long_bits b + 2 ^ (long_bits b - 1)) mod 2 ^ long_bits b
              - 2 ^ (long_bits b - 1) = z).
  { destruct (long_bits_cases b) as [-> | ->];
      [change (32 - 1) with 31 | change (64 - 1) with 63];
      Z.div_mod_to_equations; lia. }
  rewrite E. apply andb_false_iff. left. lia.
Qed.

(** There a drain never moves the top of the buffer up. *)
Lemma profile_frames_top_long (b : build) (rt : runtime) (s : thread_vars) :
  uint_fast16_t b = Fast16_long ->
  (_cur_traces_num s < 2 ^ 16)%N ->
  (_start_trace_index s < 2 ^ 16)%N ->
  (_cur_traces_num (snd (rb_scout_profile_frames b rt s)) <= _cur_traces_num s)%N.
Proof.
  intros Hb Hcur Hst.
  destruct (N.le_gt_cases (_start_trace_index s) (_cur_traces_num s)) as [Hle | Hgt].
  - destruct (profile_frames_indices b rt s) as [_ [-> | [-> | [_ ->]]]].
    + lia.
    + rewrite ATOMIC_STORE_INT16_of_N; lia.
    + lia.
  - unfold rb_scout_profile_frames, ATOMIC_LOAD.
    destruct (_thread_registered s); cbn [negb]; [|cbn; lia].
    unfold fast16_arith. rewrite Hb.
    rewrite rb_ary_new2_wrapped by lia.
    destruct (_ >? 0) eqn:E; cbn [snd]; [lia|].
    exfalso.
    assert (Hpos : 0 < (Z.of_N (_cur_traces_num s) - Z.of_N (_start_trace_index s))
                       mod 2 ^ long_bits b).
    { destruct (long_bits_cases b) as [-> | ->]; Z.div_mod_to_equations; lia. }
    lia.
Qed.

(** On such a target the number of traces stays within [MAX_TRACES]
    whatever update_indexes is given: a drain whose trim point is above the
    top asks [rb_ary_new2] for a capacity that is negative as a [long], and
    the call raises before the number of traces is stored. *)
Theorem trace_count_inside_buffer_long
  (b : build) (l : list (runtime * Stacks.call)) :
  uint_fast16_t b = Fast16_long ->
  forall m : machine,
  Z.of_N (_cur_traces_num (thread m)) <= MAX_TRACES ->
  (_start_trace_index (thread m) < 2 ^ 16)%N ->
  Z.of_N (_cur_traces_num (thread (run b l m))) <= MAX_TRACES.
Proof.
  intro Hb. induction l as [|[rt c] l IH]; intros m Hcur Hst; cbn [run]; [exact Hcur|].
  assert (H : Z.of_N (_cur_traces_num (thread (step b rt c m))) <= MAX_TRACES
              /\ (_start_trace_index (thread (step b rt c m)) < 2 ^ 16)%N);
    [|destruct H; now apply IH].
  clear IH. unfold MAX_TRACES in *. destruct m as [g s]. cbn [thread] in *.
  destruct c; cbn [step on_globals on_thread thread globals]; try (split; assumption).
  - unfold rb_scout_add_profiled_thread. cbn [snd].
    destruct (add_profiled_thread_indices b rt s) as [[-> ->] | [-> ->]]; lia.
  - destruct (remove_profiled_thread_indices s) as [-> ->]. lia.
  - pose proof (profile_frames_top_long b rt s Hb ltac:(lia) Hst) as Htop.
    destruct (profile_frames_indices b rt s) as [-> _]. lia.
  - destruct (start_sampling_indices b rt s) as [[-> ->] | [-> ->]]; lia.
  - destruct (stop_sampling_indices b rt reset s) as [[-> ->] | [-> ->]]; lia.
  - destruct (update_indexes_indices frame_index trace_index s) as [-> Hs].
    destruct (NUM2INT trace_index) as [t|]; rewrite Hs; [|lia].
    pose proof (ATOMIC_STORE_INT16_range t). lia.
  - destruct (sigalrm_handler g); cbn [on_thread thread]; [|lia].
    destruct (handler_keeps_indices rt s) as [-> ->]. lia.
  - destruct (record_sample_indices b rt s) as [-> [-> | [Hlt ->]]];
      unfold MAX_TRACES in *; lia.
  - destruct (atfork_keeps_indices b rt s) as [[-> ->] _]. lia.
  - destruct (atfork_keeps_indices b rt s) as [_ [-> ->]]. lia.
Qed.

Lemma trace_count_inside_buffer_long_witness :
  let m := run glibc_x86_64
             [(quiet [], Stacks.add_profiled_thread);
              (quiet [], Stacks.update_indexes (Fixnum 0) (Fixnum 2001));
              (quiet [], Stacks.profile_frames)]
             (machine_initial blank_memory) in
  _start_trace_index (thread m) = 2001%N
  /\ Z.of_N (_cur_traces_num (thread m)) <= MAX_TRACES.
Proof.
  split; [reflexivity|].
  apply trace_count_inside_buffer_long.
  - reflexivity.
  - discriminate.
  - reflexivity.
Defined.

(** * Further properties *)

(** ** Ranges *)

Lemma Zrange_In (k : Z) (count : nat) :
  forall n, In k (Zrange n count) <-> n <= k < n + Z.of_nat count.
Proof.
  induction count as [|count IH]; intro n; cbn [Zrange In].
  - lia.
  - rewrite IH. lia.
Qed.

Lemma Nrange_In (k : N) (count : nat) :
  forall i, In k (Nrange i count) <-> (i <= k < i + N.of_nat count)%N.
Proof.
  induction count as [|count IH]; intro i; cbn [Nrange In].
  - lia.
  - rewrite IH. lia.
Qed.

Lemma Nrange_snoc (count : nat) :
  forall i, Nrange i (S count) = Nrange i count ++ [(i + N.of_nat count)%N].
Proof.
  induction count as [|count IH]; intro i.
  - cbn. now rewrite N.add_0_r.
  - change (Nrange i (S (S count))) with (i :: Nrange (i + 1)%N (S count)).
    rewrite IH. cbn [Nrange app]. do 3 f_equal. lia.
Qed.

Lemma Zrange_succ (count : nat) :
  forall n, Zrange (n + 1) count = map Z.succ (Zrange n count).
Proof.
  induction count as [|count IH]; intro n; cbn [Zrange map]; [reflexivity|].
  rewrite IH. f_equal.
Qed.

(** Reading the first [m] entries of an array that holds a list gives the
    first [m] elements of the list. *)
Lemma map_Zrange_firstn {A B : Type} (g : A -> B) (d : A) (l : list A) :
  forall (f : Z -> B) (m : nat),
  (forall k, 0 <= k < Z.of_nat m -> f k = g (nth (Z.to_nat k) l d)) ->
  (m <= length l)%nat ->
  map f (Zrange 0 m) = map g (firstn m l).
Proof.
  induction l as [|a l IH]; intros f m Hf Hm.
  - cbn [length] in Hm. assert (m = 0%nat) by lia. subst m. reflexivity.
  - destruct m as [|m]; [reflexivity|].
    cbn [Zrange firstn map]. f_equal.
    + rewrite Hf by lia. reflexivity.
    + rewrite Zrange_succ, map_map.
      apply IH; [|cbn [length] in Hm; lia].
      intros k Hk. unfold Z.succ. rewrite Hf by lia.
      replace (Z.to_nat (k + 1)) with (S (Z.to_nat k)) by lia. reflexivity.
Qed.

Lemma ruby_type_eqb_refl (t : ruby_type) : ruby_type_eqb t t = true.
Proof. destruct t; reflexivity. Qed.

Lemma filter_all {A : Type} (p : A -> bool) (l : list A) :
  (forall x, In x l -> p x = true) -> filter p l = l.
Proof.
  induction l as [|a l IH]; intro H; cbn [filter]; [reflexivity|].
  rewrite (H a) by now left. f_equal. apply IH. intros x Hx. apply H. now right.
Qed.

(** ** Draining a drainable thread *)

Lemma profile_frames_registered (b : build) (rt : runtime) (s : thread_vars) :
  drainable s ->
  rb_scout_profile_frames b rt s =
    (Some (drained b rt s),
     set_cur_traces_num (_start_trace_index s)
       (set_stderr (stderr s ++ drain_diags b rt s) s)).
Proof.
  intros (Hreg & Hcur & Hord & Hlen). unfold trim_ordered in Hord.
  unfold MAX_TRACES in Hcur.
  unfold rb_scout_profile_frames, ATOMIC_LOAD. rewrite Hreg. cbn [negb].
  rewrite (ATOMIC_STORE_INT16_of_N (_start_trace_index s)) by lia.
  rewrite fast16_arith_small by lia.
  destruct (Z.of_N (_cur_traces_num s) - Z.of_N (_start_trace_index s) >? 0) eqn:E.
  - rewrite rb_ary_new2_accepts by lia.
    rewrite (traces_loop_spec b rt (_traces s)) by exact Hlen.
    reflexivity.
  - assert (Heq : _cur_traces_num s = _start_trace_index s) by lia.
    unfold drained, drain_diags, pending_slots. rewrite Heq, N.sub_diag.
    cbn [N.to_nat Nrange filter map flat_map]. rewrite app_nil_r.
    reflexivity.
Qed.

(** Draining twice.  After a drain of a drainable thread (registered, the
    number of traces within [MAX_TRACES], the trim point not above it), a
    second drain with no capture in between returns an empty array and
    leaves the state as the first drain left it. *)
Theorem drain_twice_is_empty (b : build) (rt rt' : runtime) (s : thread_vars) :
  drainable s ->
  let s1 := snd (rb_scout_profile_frames b rt s) in
  rb_scout_profile_frames b rt' s1 = (Some [], s1).
Proof.
  intros Hd. pose proof Hd as (Hreg & Hcur & Hord & _). unfold trim_ordered in Hord.
  unfold MAX_TRACES in Hcur.
  rewrite (profile_frames_registered b rt s Hd). cbn [snd].
  unfold rb_scout_profile_frames, ATOMIC_LOAD.
  cbn [_thread_registered _cur_traces_num _start_trace_index
       set_cur_traces_num set_stderr].
  rewrite Hreg. cbn [negb]. rewrite Z.sub_diag, fast16_arith_small by lia.
  cbn [Z.gtb Z.compare].
  rewrite (ATOMIC_STORE_INT16_of_N (_start_trace_index s)) by lia.
  reflexivity.
Qed.

Lemma drain_twice_is_empty_witness :
  let s := thread (run glibc_x86_64
                     [(quiet [], Stacks.start_sampling);
                      (quiet (frames 4), Stacks.postponed_job)]
                     (machine_initial blank_memory)) in
  fst (rb_scout_profile_frames glibc_x86_64 (quiet []) s)
  = Some [[(Object 8192, Fixnum 100); (Object 8193, Fixnum 101)]]
  /\ fst (rb_scout_profile_frames glibc_x86_64 (quiet [])
            (snd (rb_scout_profile_frames glibc_x86_64 (quiet []) s)))
     = Some [].
Proof.
  intro s. split; [reflexivity|].
  rewrite (drain_twice_is_empty glibc_x86_64 (quiet []) (quiet []) s).
  - reflexivity.
  - repeat split; try reflexivity; try discriminate.
    intros i [<- | []]. discriminate.
Defined.

(** ** What a capture stores *)

(** A capture that passes its checks below [MAX_TRACES] and finds more
    than [start_frame_index + 2] frames: the variables it changes and the
    slot it fills. *)
Lemma record_sample_stored (b : build) (rt : runtime) (s : thread_vars) :
  _ok_to_sample s = true ->
  stores_trace s rt ->
  Z.of_N (_cur_traces_num s) < MAX_TRACES ->
  let nf := rb_profile_frames_count rt BUF_SIZE in
  let s' := scout_record_sample b rt s in
  _thread_registered s' = _thread_registered s
  /\ _ok_to_sample s' = true
  /\ _ruby_thread s' = _ruby_thread s
  /\ _start_frame_index s' = _start_frame_index s
  /\ _start_trace_index s' = _start_trace_index s
  /\ _cur_traces_num s' = (_cur_traces_num s + 1)%N
  /\ (forall i, i <> _cur_traces_num s -> _traces s' i = _traces s i)
  /\ num_tracelines (_traces s' (_cur_traces_num s))
     = nf - Z.of_N (_start_frame_index s) - 2
  /\ (forall k, 0 <= k < nf ->
      frames_buf (_traces s' (_cur_traces_num s)) k
      = fst (nth (Z.to_nat k) (call_stack rt) (Qnil, 0))
      /\ lines_buf (_traces s' (_cur_traces_num s)) k
         = snd (nth (Z.to_nat k) (call_stack rt) (Qnil, 0))).
Proof.
  intros Hok (Hgc & Hth & Hn) Hcur nf s'.
  pose proof (rb_profile_frames_count_range rt) as Hnf. fold nf in Hnf, Hn.
  unfold BUF_SIZE in Hnf.
  subst s'. unfold scout_record_sample, ATOMIC_LOAD.
  rewrite Hok, Hgc. apply VALUE_eqb_eq in Hth. rewrite Hth. cbn [negb].
  apply Z.ltb_lt in Hcur. rewrite Hcur. apply Z.ltb_lt in Hcur.
  fold nf. rewrite (fast16_arith_small b (nf - Z.of_N (_start_frame_index s))) by lia.
  assert (E : (nf - Z.of_N (_start_frame_index s) >? 2) = true) by lia. rewrite E.
  rewrite (fast16_arith_small b (nf - Z.of_N (_start_frame_index s) - 2)) by lia.
  rewrite to_int_small by lia.
  cbn [_thread_registered _ok_to_sample _ruby_thread _start_frame_index
       _start_trace_index _cur_traces_num _traces
       set_job_registered set_cur_traces_num set_traces].
  assert (Eslot : forall (tr : N -> c_trace) (t : c_trace),
             trace_store tr (_cur_traces_num s) t (_cur_traces_num s) = t).
  { intros tr t. unfold trace_store. now rewrite N.eqb_refl. }
  split; [reflexivity|]. split; [exact Hok|]. split; [reflexivity|].
  split; [reflexivity|]. split; [reflexivity|].
  split; [apply ATOMIC_ADD_succ; unfold MAX_TRACES in *; lia|].
  split; [|split].
  - intros i Hi. unfold trace_store.
    destruct (N.eqb i (_cur_traces_num s)) eqn:Ei; [|reflexivity].
    apply N.eqb_eq in Ei. contradiction.
  - rewrite Eslot. reflexivity.
  - intros k Hk. rewrite Eslot. cbn [set_num_tracelines frames_buf lines_buf].
    unfold rb_profile_frames_buff, rb_profile_frames_lines, written. fold nf.
    assert (Ew : (0 <=? k) && (k <? nf) = true) by (apply andb_true_iff; lia).
    rewrite Ew. split; reflexivity.
Qed.

(** The pairs of the slot a capture fills are the kept lines of the stack,
    and a drain accepts them all when the frames have the type of a
    frame. *)
Lemma captured_lines (b : build) (rt rt' : runtime) (t : c_trace) (sfi : N) :
  let nf := rb_profile_frames_count rt BUF_SIZE in
  Z.of_N sfi + 2 < nf ->
  num_tracelines t = nf - Z.of_N sfi - 2 ->
  (forall k, 0 <= k < nf ->
     frames_buf t k = fst (nth (Z.to_nat k) (call_stack rt) (Qnil, 0))
     /\ lines_buf t k = snd (nth (Z.to_nat k) (call_stack rt) (Qnil, 0))) ->
  frames_valid b rt' rt ->
  accepted_lines b rt' t = kept_lines rt sfi.
Proof.
  intros nf Hn Hlines Hbuf Hvalid.
  assert (Hlen : nf <= Z.of_nat (length (call_stack rt)))
    by (unfold nf, rb_profile_frames_count; lia).
  unfold accepted_lines, kept_lines. fold nf.
  rewrite filter_all.
  - unfold line_indices. rewrite Hlines.
    apply (map_Zrange_firstn (fun fl => (fst fl, INT2FIX (snd fl))) (Qnil, 0)).
    + intros k Hk. destruct (Hbuf k ltac:(lia)) as [-> ->]. reflexivity.
    + lia.
  - intros n Hin. unfold line_indices in Hin. rewrite Hlines in Hin.
    apply Zrange_In in Hin. unfold valid_frame.
    destruct (Hbuf n ltac:(lia)) as [-> _].
    unfold frames_valid in Hvalid. rewrite Forall_forall in Hvalid.
    rewrite (Hvalid (nth (Z.to_nat n) (call_stack rt) (Qnil, 0))).
    + apply ruby_type_eqb_refl.
    + apply nth_In. lia.
Qed.

(** ** Captures, then a drain *)

(** One capture adds one trace at the end of what a drain returns and
    leaves the thread drainable. *)
Lemma capture_extends_drained (b : build) (rt rt' : runtime) (s : thread_vars) :
  drainable s ->
  _ok_to_sample s = true ->
  stores_trace s rt ->
  Z.of_N (_cur_traces_num s) < MAX_TRACES ->
  frames_valid b rt' rt ->
  let s' := scout_record_sample b rt s in
  drainable s'
  /\ drained b rt' s' = drained b rt' s ++ [kept_lines rt (_start_frame_index s)].
Proof.
  intros (Hreg & Hcur16 & Hord & Hlen) Hok Hst Hcur Hvalid s'.
  destruct (record_sample_stored b rt s Hok Hst Hcur)
    as (Hr & _ & _ & Hsfi & Hsti & Hc & Hother & Hnt & Hbuf).
  fold s' in Hr, Hsfi, Hsti, Hc, Hother, Hnt, Hbuf.
  pose proof Hst as (_ & _ & Hn).
  pose proof (rb_profile_frames_count_range rt) as Hnf.
  unfold trim_ordered in Hord.
  assert (HB : BUF_SIZE = 512) by reflexivity.
  assert (HM : MAX_TRACES = 2000) by reflexivity.
  assert (Hpend : pending_slots s' = pending_slots s ++ [_cur_traces_num s]).
  { unfold pending_slots. rewrite Hsti, Hc.
    replace (N.to_nat (_cur_traces_num s + 1 - _start_trace_index s))
      with (S (N.to_nat (_cur_traces_num s - _start_trace_index s))) by lia.
    rewrite Nrange_snoc. do 2 f_equal. lia. }
  assert (Hold : forall i, In i (pending_slots s) -> _traces s' i = _traces s i).
  { intros i Hi. apply Hother. unfold pending_slots in Hi.
    apply Nrange_In in Hi. lia. }
  split.
  - repeat split.
    + now rewrite Hr.
    + rewrite Hc. lia.
    + unfold trim_ordered. rewrite Hsti, Hc. lia.
    + intros i Hi. rewrite Hpend in Hi. apply in_app_or in Hi.
      destruct Hi as [Hi | [<- | []]].
      * rewrite (Hold i Hi). now apply Hlen.
      * rewrite Hnt. lia.
  - unfold drained. rewrite Hpend, filter_app, map_app. f_equal.
    + rewrite (filter_ext_in (has_lines s') (has_lines s)).
      * apply map_ext_in. intros i Hi. apply filter_In in Hi.
        now rewrite (Hold i (proj1 Hi)).
      * intros i Hi. unfold has_lines. now rewrite (Hold i Hi).
    + cbn [filter]. unfold has_lines at 1. rewrite Hnt.
      assert (E : (0 <? rb_profile_frames_count rt BUF_SIZE
                        - Z.of_N (_start_frame_index s) - 2) = true) by lia.
      rewrite E. cbn [map]. f_equal.
      apply (captured_lines b rt rt'); assumption.
Qed.

Lemma captures_drained (b : build) (rt' : runtime) (rts : list runtime) :
  forall s : thread_vars,
  drainable s ->
  _ok_to_sample s = true ->
  Z.of_N (_cur_traces_num s) + Z.of_nat (length rts) <= MAX_TRACES ->
  Forall (fun rt => stores_trace s rt /\ frames_valid b rt' rt) rts ->
  drainable (captures b rts s)
  /\ _start_trace_index (captures b rts s) = _start_trace_index s
  /\ drained b rt' (captures b rts s)
     = drained b rt' s ++ map (fun rt => kept_lines rt (_start_frame_index s)) rts.
Proof.
  induction rts as [|rt rts IH]; intros s Hd Hok Hcur Hall; cbn [captures map].
  - rewrite app_nil_r. auto.
  - inversion Hall as [|? ? [Hst Hvalid] Hrest]; subst.
    cbn [length] in Hcur.
    assert (Hlt : Z.of_N (_cur_traces_num s) < MAX_TRACES) by lia.
    destruct (capture_extends_drained b rt rt' s Hd Hok Hst Hlt Hvalid) as [Hd1 Hdr1].
    destruct (record_sample_stored b rt s Hok Hst Hlt)
      as (_ & Hok1 & Hth1 & Hsfi1 & Hsti1 & Hc1 & _).
    destruct (IH (scout_record_sample b rt s)) as (Hd2 & Hsti2 & Hdr2).
    + exact Hd1.
    + exact Hok1.
    + rewrite Hc1. lia.
    + eapply Forall_impl; [|exact Hrest].
      intros r [(Hgc & Hth & Hn) Hv]. split; [|exact Hv].
      unfold stores_trace. rewrite Hth1, Hsfi1. auto.
    + split; [exact Hd2|]. split; [now rewrite Hsti2|].
      rewrite Hdr2, Hdr1, Hsfi1, <- app_assoc. reflexivity.
Qed.

(** Captures followed by a drain.  On a drainable thread that is sampling,
    let the capture run once for each runtime of a list that fits into the
    buffer, each time outside a collection, on the thread of the sampler and
    with more than [start_frame_index + 2] frames of the frame type on the
    stack.  The drain that follows returns what was pending before, then
    one trace for each capture in the order of the captures, each the
    innermost frames of its stack with their lines, all but
    [start_frame_index + 2]; and it leaves the number of traces at the trim
    point. *)
Theorem captures_then_drain
  (b : build) (rt' : runtime) (rts : list runtime) (s : thread_vars) :
  drainable s ->
  _ok_to_sample s = true ->
  Z.of_N (_cur_traces_num s) + Z.of_nat (length rts) <= MAX_TRACES ->
  Forall (fun rt => stores_trace s rt /\ frames_valid b rt' rt) rts ->
  let s' := captures b rts s in
  fst (rb_scout_profile_frames b rt' s')
  = Some (drained b rt' s
          ++ map (fun rt => kept_lines rt (_start_frame_index s)) rts)
  /\ _cur_traces_num (snd (rb_scout_profile_frames b rt' s'))
     = _start_trace_index s.
Proof.
  intros Hd Hok Hcur Hall s'.
  destruct (captures_drained b rt' rts s Hd Hok Hcur Hall) as (Hd' & Hsti & Hdr).
  fold s' in Hd', Hsti, Hdr.
  rewrite (profile_frames_registered b rt' s' Hd'). cbn [fst snd].
  rewrite Hdr. split; [reflexivity|]. exact Hsti.
Qed.

Lemma captures_then_drain_witness :
  let s := thread (run glibc_x86_64 [(quiet [], Stacks.start_sampling)]
                     (machine_initial blank_memory)) in
  fst (rb_scout_profile_frames glibc_x86_64 (quiet [])
         (captures glibc_x86_64 [quiet (frames 4); quiet (frames 5)] s))
  = Some [[(Object 8192, Fixnum 100); (Object 8193, Fixnum 101)];
          [(Object 8192, Fixnum 100); (Object 8193, Fixnum 101);
           (Object 8194, Fixnum 102)]].
Proof.
  intro s.
  refine (proj1 (captures_then_drain glibc_x86_64 (quiet [])
                   [quiet (frames 4); quiet (frames 5)] s _ _ _ _)).
  - repeat split; try reflexivity; try discriminate; intros i [].
  - reflexivity.
  - discriminate.
  - repeat constructor.
Defined.

(** ** Marking and draining *)







(** ** What the handler leaves alone *)

(** The handler writes three counters and two flags and nothing else: the
    trace buffer, the indices, the registration, the owning thread, the
    sampling flag, the timer and the diagnostic stream are as before. *)
Theorem handler_leaves_buffer_alone (rt : runtime) (s : thread_vars) :
  let s' := scout_profile_broadcast_signal_handler rt s in
  _traces s' = _traces s
  /\ _cur_traces_num s' = _cur_traces_num s
  /\ _start_frame_index s' = _start_frame_index s
  /\ _start_trace_index s' = _start_trace_index s
  /\ _thread_registered s' = _thread_registered s
  /\ _ok_to_sample s' = _ok_to_sample s
  /\ _ruby_thread s' = _ruby_thread s
  /\ gc_registered s' = gc_registered s
  /\ timer_armed s' = timer_armed s
  /\ stderr s' = stderr s
  /\ scoutprof_gc_mark s' = scoutprof_gc_mark s.
Proof.
  cbv zeta. unfold scout_profile_broadcast_signal_handler, scoutprof_gc_mark.
  branches; cbn; repeat split.
Qed.

(** ** Stopping cancels *)

Lemma handler_disabled (rt : runtime) (s : thread_vars) :
  _ok_to_sample s = false -> scout_profile_broadcast_signal_handler rt s = s.
Proof.
  intro H. unfold scout_profile_broadcast_signal_handler, ATOMIC_LOAD. now rewrite H.
Qed.

(** After stop_sampling, with either argument, an interrupt that still
    arrives and a capture that was still queued change nothing, whatever
    the runtime answers. *)
Theorem stopped_sampler_ignores_events
  (b : build) (rt rt1 rt2 : runtime) (reset : VALUE) (s : thread_vars) :
  let s' := snd (rb_scout_stop_sampling b rt reset s) in
  _ok_to_sample s' = false
  /\ scout_profile_broadcast_signal_handler rt1 s' = s'
  /\ scout_record_sample b rt2 s' = s'.
Proof.
  cbv zeta.
  assert (H : _ok_to_sample (snd (rb_scout_stop_sampling b rt reset s)) = false).
  { unfold rb_scout_stop_sampling.
    destruct (ruby_type_eqb (TYPE rt reset) T_TRUE); reflexivity. }
  split; [exact H|].
  split; [now apply handler_disabled | now apply scout_record_sample_disabled].
Qed.

(** ** Interrupts while the handler runs *)

(** While [_in_signal_handler] is set, any number of interrupts adds that
    number to [_skipped_in_signal_handler], modulo 2^32, and changes no
    other variable. *)
Theorem nested_interrupts_are_counted (rts : list runtime) :
  forall s : thread_vars,
  _ok_to_sample s = true ->
  _in_signal_handler s = true ->
  Z.of_N (_skipped_in_signal_handler s) < 2 ^ 32 ->
  interrupts rts s =
    set_skipped_in_signal_handler
      (Z.to_N ((Z.of_N (_skipped_in_signal_handler s) + Z.of_nat (length rts))
               mod 2 ^ 32)) s.
Proof.
  induction rts as [|rt rts IH]; intros s Hok Hin Hc; cbn [interrupts length].
  - rewrite Z.add_0_r, Z.mod_small, N2Z.id by lia. destruct s; reflexivity.
  - unfold scout_profile_broadcast_signal_handler at 1. unfold ATOMIC_LOAD.
    rewrite Hok, Hin. cbn [negb].
    rewrite IH; [| exact Hok | exact Hin | ].
    + cbn [_skipped_in_signal_handler set_skipped_in_signal_handler].
      unfold ATOMIC_ADD.
      pose proof (Z.mod_pos_bound (Z.of_N (_skipped_in_signal_handler s) + 1)
                    (2 ^ 32) ltac:(lia)) as Hb.
      rewrite Z2N.id by lia. rewrite Z.add_mod_idemp_l by lia.
      replace (Z.of_N (_skipped_in_signal_handler s) + 1 + Z.of_nat (length rts))
        with (Z.of_N (_skipped_in_signal_handler s) + Z.of_nat (S (length rts)))
        by lia.
      reflexivity.
    + cbn [_skipped_in_signal_handler set_skipped_in_signal_handler].
      unfold ATOMIC_ADD.
      pose proof (Z.mod_pos_bound (Z.of_N (_skipped_in_signal_handler s) + 1)
                    (2 ^ 32) ltac:(lia)) as Hb.
      rewrite Z2N.id by lia. lia.
Qed.

Lemma nested_interrupts_are_counted_witness :
  let s := set_in_signal_handler true
             (thread (run glibc_x86_64 [(quiet [], Stacks.start_sampling)]
                        (machine_initial blank_memory))) in
  interrupts [quiet []; collecting []; quiet (frames 3)] s
  = set_skipped_in_signal_handler 3%N s.
Proof.
  intro s.
  exact (nested_interrupts_are_counted [quiet []; collecting []; quiet (frames 3)] s
           eq_refl eq_refl eq_refl).
Defined.

(** ** Trimming, then a drain *)

Lemma NUM2INT_Fixnum (n : Z) : - 2 ^ 31 <= n < 2 ^ 31 -> NUM2INT (Fixnum n) = Some n.
Proof.
  intro H. unfold NUM2INT.
  assert (E : (- 2 ^ 31 <=? n) && (n <? 2 ^ 31) = true) by (apply andb_true_iff; lia).
  now rewrite E.
Qed.

(** On a registered thread whose number of traces is within [MAX_TRACES]:
    update_indexes with a trace index [t] between 0 and the number of
    traces, then a drain: the drain returns the traces of the slots from
    [t] to the top that have lines, none of a slot below [t], and
    current_trace_index returns [t] afterwards. *)
Theorem update_indexes_then_drain
  (b : build) (rt : runtime) (f t : Z) (s : thread_vars) :
  _thread_registered s = true ->
  Z.of_N (_cur_traces_num s) <= MAX_TRACES ->
  (forall i, (i < _cur_traces_num s)%N -> num_tracelines (_traces s i) <= BUF_SIZE) ->
  - 2 ^ 31 <= f < 2 ^ 31 ->
  0 <= t <= Z.of_N (_cur_traces_num s) ->
  let s1 := snd (rb_scout_update_indexes (Fixnum f) (Fixnum t) s) in
  let slots := Nrange (Z.to_N t) (N.to_nat (_cur_traces_num s - Z.to_N t)) in
  fst (rb_scout_update_indexes (Fixnum f) (Fixnum t) s) = Some Qtrue
  /\ fst (rb_scout_profile_frames b rt s1)
     = Some (map (fun i => accepted_lines b rt (_traces s i))
               (filter (has_lines s) slots))
  /\ rb_scout_current_trace_index (snd (rb_scout_profile_frames b rt s1))
     = INT2NUM t.
Proof.
  intros Hreg Hcur Hlen Hf Ht s1 slots. subst s1 slots.
  assert (HM : MAX_TRACES = 2000) by reflexivity.
  unfold rb_scout_update_indexes.
  rewrite (NUM2INT_Fixnum t), (NUM2INT_Fixnum f) by lia. cbn [fst snd].
  split; [reflexivity|].
  rewrite (ATOMIC_STORE_INT16_small t) by lia.
  set (s1 := set_start_frame_index _ (set_start_trace_index (Z.to_N t) s)).
  assert (Hd : drainable s1).
  { repeat split.
    - exact Hreg.
    - exact Hcur.
    - unfold trim_ordered. cbn. lia.
    - intros i Hi. unfold pending_slots in Hi. cbn in Hi. apply Nrange_In in Hi.
      cbn. apply Hlen. lia. }
  rewrite (profile_frames_registered b rt s1 Hd). cbn [fst snd].
  split; [reflexivity|].
  unfold rb_scout_current_trace_index, ATOMIC_LOAD. cbn.
  rewrite Z2N.id, to_int_small by lia. reflexivity.
Qed.

Lemma update_indexes_then_drain_witness :
  let s := captures glibc_x86_64
             [quiet (frames 4); quiet (frames 5); quiet (frames 3)]
             (thread (run glibc_x86_64 [(quiet [], Stacks.start_sampling)]
                        (machine_initial blank_memory))) in
  fst (rb_scout_profile_frames glibc_x86_64 (quiet [])
         (snd (rb_scout_update_indexes (Fixnum 0) (Fixnum 2) s)))
  = Some [[(Object 8192, Fixnum 100)]].
Proof.
  intro s.
  refine (proj1 (proj2 (update_indexes_then_drain glibc_x86_64 (quiet []) 0 2 s
                          _ _ _ _ _))).
  - reflexivity.
  - discriminate.
  - intros i Hi.
    assert (Hc : (i = 0 \/ i = 1 \/ i = 2)%N) by (change (i < 3)%N in Hi; lia).
    destruct Hc as [-> | [-> | ->]]; discriminate.
  - lia.
  - split; [lia | discriminate].
Defined.

(** ** Arguments of update_indexes *)

(** The two indices are stored in 16 bits: small integers that agree
    modulo 2^16 are the same argument, so that an index [-k] is the index
    [65536 - k].  The trace index is converted and stored before the frame
    index is converted: with nil, true or false for the trace index the call
    raises and the state is as it was; with a small integer for the trace
    index and nil, true or false for the frame index it raises with the trim
    point already moved. *)
Theorem update_indexes_arguments (s : thread_vars) :
  (forall f t f' t',
     - 2 ^ 31 <= f < 2 ^ 31 -> - 2 ^ 31 <= t < 2 ^ 31 ->
     - 2 ^ 31 <= f' < 2 ^ 31 -> - 2 ^ 31 <= t' < 2 ^ 31 ->
     f mod 2 ^ 16 = f' mod 2 ^ 16 -> t mod 2 ^ 16 = t' mod 2 ^ 16 ->
     rb_scout_update_indexes (Fixnum f) (Fixnum t) s
     = rb_scout_update_indexes (Fixnum f') (Fixnum t') s)
  /\ (forall frame_index trace_index,
      trace_index = Qnil \/ trace_index = Qtrue \/ trace_index = Qfalse ->
      rb_scout_update_indexes frame_index trace_index s = (None, s))
  /\ (forall frame_index t,
      frame_index = Qnil \/ frame_index = Qtrue \/ frame_index = Qfalse ->
      - 2 ^ 31 <= t < 2 ^ 31 ->
      rb_scout_update_indexes frame_index (Fixnum t) s
      = (None, set_start_trace_index (Z.to_N (t mod 2 ^ 16)) s)).
Proof.
  split; [|split].
  - intros f t f' t' Hf Ht Hf' Ht' Ef Et. unfold rb_scout_update_indexes.
    rewrite (NUM2INT_Fixnum t Ht), (NUM2INT_Fixnum f Hf),
      (NUM2INT_Fixnum t' Ht'), (NUM2INT_Fixnum f' Hf').
    unfold ATOMIC_STORE_INT16. now rewrite Ef, Et.
  - intros fi ti [-> | [-> | ->]]; reflexivity.
  - intros fi t Hfi Ht. unfold rb_scout_update_indexes.
    rewrite (NUM2INT_Fixnum t Ht). destruct Hfi as [-> | [-> | ->]]; reflexivity.
Qed.

Lemma update_indexes_arguments_witness :
  let s := thread (run darwin [(quiet [], Stacks.add_profiled_thread)]
                     (machine_initial blank_memory)) in
  _start_trace_index (snd (rb_scout_update_indexes Qnil (Fixnum 7) s)) = 7%N
  /\ rb_scout_update_indexes (Fixnum (-1)) (Fixnum 65543) s
     = rb_scout_update_indexes (Fixnum 65535) (Fixnum 7) s.
Proof.
  intro s. split.
  - rewrite (proj2 (proj2 (update_indexes_arguments s)) Qnil 7
               (or_introl eq_refl) ltac:(lia)).
    reflexivity.
  - apply (proj1 (update_indexes_arguments s)); try lia; reflexivity.
Defined.

(** ** Starting and stopping *)

(** On a registered thread that is not sampling and whose timer is not
    armed, start_sampling followed by stop_sampling with an argument that
    is not true, when the system calls of the timer succeed, leaves the
    state of the model as it was before: every variable of the thread, the
    registration with the collector, the timer disarmed again and the
    diagnostic stream.  The signal mask of the thread, which start_sampling
    replaces, is no part of that state. *)
Theorem start_then_stop_restores
  (b : build) (rt1 rt2 : runtime) (reset : VALUE) (s : thread_vars) :
  _thread_registered s = true ->
  _ok_to_sample s = false ->
  timer_armed s = false ->
  timer_calls_succeed rt1 ->
  timer_settime rt2 <> -1 ->
  TYPE rt2 reset <> T_TRUE ->
  snd (rb_scout_stop_sampling b rt2 reset (snd (rb_scout_start_sampling b rt1 s))) = s.
Proof.
  intros Hreg Hok Harm (H1 & H2 & H3) H4 Hreset.
  assert (E : ruby_type_eqb (TYPE rt2 reset) T_TRUE = false).
  { destruct (TYPE rt2 reset); try reflexivity. now elim Hreset. }
  apply Z.eqb_neq in H1, H2, H3, H4.
  unfold rb_scout_stop_sampling, rb_scout_start_sampling, scout_add_profiled_thread,
    scout_start_thread_timer, scout_stop_thread_timer, ATOMIC_LOAD, ATOMIC_STORE_BOOL.
  rewrite E, Hreg. cbn [snd].
  destruct s. cbn in Hreg, Hok, Harm. subst.
  destruct (linux b); cbn; rewrite ?H1, ?H2, ?H3; cbn; rewrite ?H4; reflexivity.
Qed.

Lemma start_then_stop_restores_witness :
  let s := thread (run glibc_x86_64 [(quiet [], Stacks.add_profiled_thread)]
                     (machine_initial blank_memory)) in
  timer_armed (snd (rb_scout_start_sampling glibc_x86_64 (quiet []) s)) = true
  /\ snd (rb_scout_stop_sampling glibc_x86_64 (quiet []) Qfalse
            (snd (rb_scout_start_sampling glibc_x86_64 (quiet []) s))) = s.
Proof.
  intro s. split; [reflexivity|].
  apply start_then_stop_restores; try reflexivity; try discriminate.
  repeat split; discriminate.
Defined.

(** ** The fork hooks *)

(** The two hooks change nothing on a thread that is not sampling, and
    nothing where there is no per-thread timer.  On Linux, on a registered
    thread that is sampling, the first disarms the timer and the second
    arms it again, when the system calls succeed. *)
Theorem fork_hooks_rearm (b : build) (rt1 rt2 : runtime) (s : thread_vars) :
  (_ok_to_sample s = false ->
   scout_parent_atfork_prepare b rt1 s = s
   /\ scout_parent_atfork_finish b rt2 s = s)
  /\ (linux b = false ->
      scout_parent_atfork_prepare b rt1 s = s
      /\ scout_parent_atfork_finish b rt2 s = s)
  /\ (linux b = true ->
      _ok_to_sample s = true ->
      _thread_registered s = true ->
      timer_settime rt1 <> -1 ->
      timer_calls_succeed rt2 ->
      scout_parent_atfork_prepare b rt1 s = set_timer_armed false s
      /\ scout_parent_atfork_finish b rt2 (scout_parent_atfork_prepare b rt1 s)
         = set_timer_armed true s).
Proof.
  unfold scout_parent_atfork_prepare, scout_parent_atfork_finish,
    scout_start_thread_timer, scout_stop_thread_timer, ATOMIC_LOAD.
  split; [|split].
  - intros ->. split; reflexivity.
  - intros ->. destruct (_ok_to_sample s), (negb (_thread_registered s));
      split; reflexivity.
  - intros -> Hok Hreg H1 (H2 & H3 & H4). apply Z.eqb_neq in H1, H2, H3, H4.
    rewrite Hok, Hreg, H1. cbn [negb]. split; [reflexivity|].
    cbn [_ok_to_sample _thread_registered set_timer_armed].
    rewrite Hok, Hreg, H2, H3, H4. cbn [negb]. reflexivity.
Qed.

Lemma fork_hooks_rearm_witness :
  let s := thread (run glibc_x86_64 [(quiet [], Stacks.start_sampling)]
                     (machine_initial blank_memory)) in
  timer_armed s = true
  /\ timer_armed (scout_parent_atfork_prepare glibc_x86_64 (quiet []) s) = false
  /\ scout_parent_atfork_finish glibc_x86_64 (quiet [])
       (scout_parent_atfork_prepare glibc_x86_64 (quiet []) s)
     = s.
Proof.
  intro s.
  destruct (proj2 (proj2 (fork_hooks_rearm glibc_x86_64 (quiet []) (quiet []) s))
              eq_refl eq_refl eq_refl ltac:(discriminate)
              ltac:(repeat split; discriminate)) as [H1 H2].
  split; [reflexivity|]. split.
  - rewrite H1. reflexivity.
  - rewrite H2. reflexivity.
Defined.

(** ** The frame index of the caller *)

(** A capture that passes its checks and finds at most
    [start_frame_index + 2] frames, but not fewer than [start_frame_index]:
    neither the top nor a skip counter changes. *)
Lemma record_sample_discarded (b : build) (rt : runtime) (s : thread_vars) :
  capture_proceeds rt s ->
  0 <= rb_profile_frames_count rt BUF_SIZE - Z.of_N (_start_frame_index s) <= 2 ->
  _cur_traces_num (scout_record_sample b rt s) = _cur_traces_num s
  /\ skip_counters (scout_record_sample b rt s) = skip_counters s.
Proof.
  intros (Hok & Hgc & Hth) Hn. unfold scout_record_sample, ATOMIC_LOAD.
  rewrite Hok, Hgc. apply VALUE_eqb_eq in Hth. rewrite Hth. cbn [negb].
  destruct (Z.of_N (_cur_traces_num s) <? MAX_TRACES); [|split; reflexivity].
  rewrite fast16_arith_small by lia.
  assert (E : (rb_profile_frames_count rt BUF_SIZE
               - Z.of_N (_start_frame_index s) >? 2) = false) by lia.
  rewrite E. split; reflexivity.
Qed.

Lemma rb_scout_current_frame_index_value (rt : runtime) :
  let nf := rb_profile_frames_count rt BUF_SIZE in
  exists k, rb_scout_current_frame_index rt = Fixnum k
            /\ 0 <= k < BUF_SIZE
            /\ 0 <= nf - k <= 1
            /\ (1 < nf -> k = nf - 1).
Proof.
  intro nf. pose proof (rb_profile_frames_count_range rt) as Hnf. fold nf in Hnf.
  unfold rb_scout_current_frame_index, INT2NUM. fold nf. unfold BUF_SIZE in *.
  destruct (nf >? 1) eqn:E.
  - exists (nf - 1). repeat split; lia.
  - exists 0. repeat split; lia.
Qed.

(** current_frame_index returns a frame index between 0 and
    [BUF_SIZE - 1].  Given to update_indexes, it makes the capture discard
    a sample taken at the depth at which it was read, without counting a
    skip; a sample taken more than one frame deeper is stored with as many
    lines as the stack is deeper, less one. *)
Theorem frame_index_of_caller
  (b : build) (rt : runtime) (t : Z) (s : thread_vars) :
  capture_proceeds rt s ->
  Z.of_N (_cur_traces_num s) < MAX_TRACES ->
  - 2 ^ 31 <= t < 2 ^ 31 ->
  let s1 := snd (rb_scout_update_indexes
                   (rb_scout_current_frame_index rt) (Fixnum t) s) in
  let nf := rb_profile_frames_count rt BUF_SIZE in
  Z.of_N (_start_frame_index s1) < BUF_SIZE
  /\ _cur_traces_num (scout_record_sample b rt s1) = _cur_traces_num s
  /\ skip_counters (scout_record_sample b rt s1) = skip_counters s
  /\ (forall rt',
      capture_proceeds rt' s ->
      1 < nf ->
      nf + 1 < rb_profile_frames_count rt' BUF_SIZE ->
      num_tracelines (_traces (scout_record_sample b rt' s1) (_cur_traces_num s))
      = rb_profile_frames_count rt' BUF_SIZE - nf - 1
      /\ _cur_traces_num (scout_record_sample b rt' s1)
         = (_cur_traces_num s + 1)%N).
Proof.
  intros Hp Hcur Ht s1 nf.
  destruct (rb_scout_current_frame_index_value rt) as (k & Ek & Hk & Hnk & Hk1).
  fold nf in Hnk, Hk1. unfold BUF_SIZE in Hk.
  subst s1. rewrite Ek. unfold rb_scout_update_indexes.
  rewrite (NUM2INT_Fixnum t Ht), (NUM2INT_Fixnum k) by lia. cbn [snd].
  rewrite (ATOMIC_STORE_INT16_small k) by lia.
  set (s1 := set_start_frame_index (Z.to_N k) _).
  assert (Hsfi : Z.of_N (_start_frame_index s1) = k) by (cbn; lia).
  assert (Hp1 : forall r, capture_proceeds r s -> capture_proceeds r s1)
    by (intros r H; exact H).
  split; [rewrite Hsfi; unfold BUF_SIZE; lia|].
  destruct (record_sample_discarded b rt s1 (Hp1 rt Hp)) as [Hc Hs].
  { rewrite Hsfi. fold nf. lia. }
  split; [exact Hc|]. split; [exact Hs|].
  intros rt' Hp' Hnf Hdeep.
  destruct Hp' as (Hok & Hgc & Hth).
  destruct (record_sample_stored b rt' s1 Hok) as (_ & _ & _ & _ & _ & Hc' & _ & Hnt & _).
  - unfold stores_trace. rewrite Hsfi. repeat split; [exact Hgc | exact Hth | lia].
  - exact Hcur.
  - split; [|exact Hc'].
    change (_cur_traces_num s1) with (_cur_traces_num s) in Hnt.
    rewrite Hnt, Hsfi. lia.
Qed.

Lemma frame_index_of_caller_witness :
  let s := thread (run darwin [(quiet [], Stacks.start_sampling)]
                     (machine_initial blank_memory)) in
  let s1 := snd (rb_scout_update_indexes
                   (rb_scout_current_frame_index (quiet (frames 6))) (Fixnum 0) s) in
  _start_frame_index s1 = 5%N
  /\ _cur_traces_num (scout_record_sample darwin (quiet (frames 6)) s1) = 0%N
  /\ num_tracelines (_traces (scout_record_sample darwin (quiet (frames 9)) s1) 0%N)
     = 2.
Proof.
  intros s s1.
  destruct (frame_index_of_caller darwin (quiet (frames 6)) 0 s)
    as (_ & H2 & _ & H4).
  - repeat split.
  - reflexivity.
  - lia.
  - split; [reflexivity|]. split; [exact H2|].
    refine (proj1 (H4 (quiet (frames 9)) _ _ _)).
    + repeat split.
    + reflexivity.
    + reflexivity.
Defined.

(** ** The readers *)

Lemma to_int_as_int (c : N) : Z.of_N c < 2 ^ 32 -> to_int (Z.of_N c) = as_int c.
Proof.
  intro H. unfold to_int, as_int.
  destruct (Z.of_N c <? 2 ^ 31) eqn:E; Z.div_mod_to_equations; lia.
Qed.

(** The four readers of the skip counters pass the 32-bit count to
    [INT2NUM] as an [int]: below 2^31 they return the count, from 2^31 on
    the count less 2^32, a negative number.  current_trace_index returns the
    16-bit number of traces as it is. *)
Theorem readers_return_ints (s : thread_vars) :
  Z.of_N (_skipped_in_gc s) < 2 ^ 32 ->
  Z.of_N (_skipped_in_signal_handler s) < 2 ^ 32 ->
  Z.of_N (_skipped_in_job_registered s) < 2 ^ 32 ->
  Z.of_N (_skipped_in_not_running s) < 2 ^ 32 ->
  Z.of_N (_cur_traces_num s) < 2 ^ 16 ->
  rb_scout_skipped_in_gc s = Fixnum (as_int (_skipped_in_gc s))
  /\ rb_scout_skipped_in_handler s = Fixnum (as_int (_skipped_in_signal_handler s))
  /\ rb_scout_skipped_in_job_registered s
     = Fixnum (as_int (_skipped_in_job_registered s))
  /\ rb_scout_skipped_in_not_running s
     = Fixnum (as_int (_skipped_in_not_running s))
  /\ rb_scout_current_trace_index s = Fixnum (Z.of_N (_cur_traces_num s)).
Proof.
  intros H1 H2 H3 H4 H5.
  unfold rb_scout_skipped_in_gc, rb_scout_skipped_in_handler,
    rb_scout_skipped_in_job_registered, rb_scout_skipped_in_not_running,
    rb_scout_current_trace_index, INT2NUM, ATOMIC_LOAD.
  rewrite !to_int_as_int by lia.
  repeat split. unfold as_int.
  assert (E : (Z.of_N (_cur_traces_num s) <? 2 ^ 31) = true) by lia.
  now rewrite E.
Qed.

Lemma readers_return_ints_witness :
  let s := set_skipped_in_gc (2 ^ 31)
             (thread (run darwin [(quiet [], Stacks.start_sampling)]
                        (machine_initial blank_memory))) in
  rb_scout_skipped_in_gc s = Fixnum (- 2 ^ 31).
Proof.
  intro s.
  exact (proj1 (readers_return_ints s eq_refl eq_refl eq_refl eq_refl eq_refl)).
Defined.

(** ** Pending traces under any capture *)

Lemma record_sample_other_slots (b : build) (rt : runtime) (s : thread_vars) (i : N) :
  i <> _cur_traces_num s ->
  _traces (scout_record_sample b rt s) i = _traces s i.
Proof.
  intro Hi. unfold scout_record_sample, ATOMIC_LOAD.
  assert (E : N.eqb i (_cur_traces_num s) = false) by now apply N.eqb_neq.
  branches; cbn; unfold trace_store; rewrite ?E; reflexivity.
Qed.

(** Whatever the runtime answers and on every target, a capture leaves the
    traces that were pending as they were and in their order: what a drain
    would return afterwards is what it would have returned before, with at
    most one trace added at the end. *)
Theorem capture_keeps_pending_traces
  (b : build) (rt rt' : runtime) (s : thread_vars) :
  trim_ordered s ->
  let s' := scout_record_sample b rt s in
  drained b rt' s' = drained b rt' s
  \/ drained b rt' s'
     = drained b rt' s ++ [accepted_lines b rt' (_traces s' (_cur_traces_num s))].
Proof.
  intros Hord s'. unfold trim_ordered in Hord.
  assert (Hold : forall i, In i (pending_slots s) -> _traces s' i = _traces s i).
  { intros i Hi. apply record_sample_other_slots.
    unfold pending_slots in Hi. apply Nrange_In in Hi. lia. }
  assert (Hsame : map (fun i => accepted_lines b rt' (_traces s' i))
                    (filter (has_lines s') (pending_slots s))
                  = drained b rt' s).
  { unfold drained. rewrite (filter_ext_in (has_lines s') (has_lines s)).
    - apply map_ext_in. intros i Hi. apply filter_In in Hi.
      now rewrite (Hold i (proj1 Hi)).
    - intros i Hi. unfold has_lines. now rewrite (Hold i Hi). }
  destruct (record_sample_indices b rt s) as [Hsti [Hc | [_ Hc]]];
    fold s' in Hsti, Hc.
  - left. rewrite <- Hsame. unfold drained, pending_slots. now rewrite Hsti, Hc.
  - assert (Hpend : pending_slots s' = pending_slots s ++ [_cur_traces_num s]).
    { unfold pending_slots. rewrite Hsti, Hc.
      replace (N.to_nat (_cur_traces_num s + 1 - _start_trace_index s))
        with (S (N.to_nat (_cur_traces_num s - _start_trace_index s))) by lia.
      rewrite Nrange_snoc. do 2 f_equal. lia. }
    unfold drained at 1 3. rewrite Hpend, filter_app, map_app, Hsame.
    cbn [filter]. destruct (has_lines s' (_cur_traces_num s)).
    + right. reflexivity.
    + left. cbn [map]. now rewrite app_nil_r.
Qed.

Lemma capture_keeps_pending_traces_witness :
  let s := snd (rb_scout_update_indexes (Fixnum 3) (Fixnum 0)
                  (thread (run glibc_x86_64 [(quiet [], Stacks.start_sampling)]
                             (machine_initial blank_memory)))) in
  let s' := scout_record_sample glibc_x86_64 (quiet (frames 2)) s in
  _cur_traces_num s = 0%N
  /\ _cur_traces_num s' = 1%N
  /\ (drained glibc_x86_64 (quiet []) s' = drained glibc_x86_64 (quiet []) s
      \/ drained glibc_x86_64 (quiet []) s'
         = drained glibc_x86_64 (quiet []) s
           ++ [accepted_lines glibc_x86_64 (quiet []) (_traces s' (_cur_traces_num s))]).
Proof.
  intros s s'. split; [reflexivity|]. split; [reflexivity|].
  apply capture_keeps_pending_traces. discriminate.
Defined.

(** ** A sampling round *)

(** An interrupt outside the handler whose job is queued, followed by the
    job, where the job passes its checks: the round leaves the state that
    the capture alone leaves, with both flags of the handshake false. *)
Theorem interrupt_then_capture (b : build) (rt : runtime) (s : thread_vars) :
  capture_proceeds rt s ->
  _in_signal_handler s = false ->
  _job_registered s = false ->
  rb_postponed_job_register rt = 1 \/ rb_postponed_job_register rt = 2 ->
  let queued := scout_profile_broadcast_signal_handler rt s in
  let s' := scout_record_sample b rt queued in
  _job_registered queued = true
  /\ s' = scout_record_sample b rt s
  /\ _job_registered s' = false
  /\ _in_signal_handler s' = false.
Proof.
  intros (Hok & Hgc & Hth) Hin Hjob Hq. cbv zeta.
  apply VALUE_eqb_eq in Hth.
  assert (E : (rb_postponed_job_register rt =? 1)
              || (rb_postponed_job_register rt =? 2) = true)
    by (apply orb_true_iff; lia).
  destruct s. cbn in Hok, Hin, Hjob, Hth. subst.
  unfold scout_profile_broadcast_signal_handler, scout_record_sample, ATOMIC_LOAD.
  cbn. rewrite ?Hgc, ?Hth, ?E. cbn. rewrite ?Hgc, ?Hth. cbn.
  split; [reflexivity|].
  destruct (Z.of_N _ <? MAX_TRACES); [destruct (fast16_arith b _ >? 2)|];
    repeat split.
Qed.

Lemma interrupt_then_capture_witness :
  let s := thread (run glibc_x86_64 [(quiet [], Stacks.start_sampling)]
                     (machine_initial blank_memory)) in
  let s' := scout_record_sample glibc_x86_64 (quiet (frames 10))
              (scout_profile_broadcast_signal_handler (quiet (frames 10)) s) in
  _cur_traces_num s' = 1%N /\ _job_registered s' = false.
Proof.
  intros s s'.
  destruct (interrupt_then_capture glibc_x86_64 (quiet (frames 10)) s)
    as (_ & H & Hj & _).
  - repeat split.
  - reflexivity.
  - reflexivity.
  - now left.
  - fold s' in H, Hj. split; [rewrite H; reflexivity | exact Hj].
Defined.

(** ** Registration over histories *)

Lemma remove_profiled_thread_cases (s : thread_vars) :
  (_thread_registered s = false -> remove_profiled_thread s = (Some 1, s))
  /\ (_thread_registered s = true ->
      fst (remove_profiled_thread s) = None
      /\ _thread_registered (snd (remove_profiled_thread s)) = true
      /\ _ok_to_sample (snd (remove_profiled_thread s)) = false
      /\ gc_registered (snd (remove_profiled_thread s)) = false).
Proof.
  unfold remove_profiled_thread, ATOMIC_LOAD. split; intro H; rewrite H.
  - reflexivity.
  - cbn. repeat split. exact H.
Qed.

Lemma handshake_eq (a c : thread_vars) :
  handshake a = handshake c ->
  _thread_registered a = _thread_registered c
  /\ _ok_to_sample a = _ok_to_sample c
  /\ _job_registered a = _job_registered c
  /\ skip_counters a = skip_counters c.
Proof.
  unfold handshake. intro H. repeat split.
  - exact (f_equal (fun t => fst (fst (fst t))) H).
  - exact (f_equal (fun t => snd (fst (fst t))) H).
  - exact (f_equal (fun t => snd (fst t)) H).
  - exact (f_equal snd H).
Qed.

Lemma add_profiled_thread_registers (b : build) (rt : runtime) (s : thread_vars) :
  _thread_registered (snd (scout_add_profiled_thread b rt s)) = true.
Proof.
  unfold scout_add_profiled_thread, ATOMIC_LOAD.
  destruct (_thread_registered s) eqn:E; [exact E | reflexivity].
Qed.

Lemma timers_keep_handshake (b : build) (rt : runtime) (s : thread_vars) :
  handshake (scout_start_thread_timer b rt s) = handshake s
  /\ handshake (scout_stop_thread_timer b rt s) = handshake s.
Proof.
  unfold scout_start_thread_timer, scout_stop_thread_timer.
  branches; split; reflexivity.
Qed.

Lemma start_sampling_registers (b : build) (rt : runtime) (s : thread_vars) :
  _thread_registered (snd (rb_scout_start_sampling b rt s)) = true.
Proof.
  unfold rb_scout_start_sampling. cbn [snd].
  set (s1 := set_ok_to_sample _ (snd (scout_add_profiled_thread b rt s))).
  assert (H1 : _thread_registered s1 = true)
    by apply (add_profiled_thread_registers b rt s).
  destruct (linux b); [|exact H1].
  destruct (timers_keep_handshake b rt s1) as [H _].
  destruct (handshake_eq _ _ H) as (Hr & _). now rewrite Hr.
Qed.

Lemma profile_frames_keeps_handshake (b : build) (rt : runtime) (s : thread_vars) :
  handshake (snd (rb_scout_profile_frames b rt s)) = handshake s.
Proof.
  unfold rb_scout_profile_frames, ATOMIC_LOAD.
  destruct (_thread_registered s) eqn:Hreg; cbn [negb].
  - destruct (fast16_arith b _ >? 0); [|unfold handshake; cbn; now rewrite Hreg].
    destruct (rb_ary_new2 b _); [|reflexivity].
    destruct (traces_loop _ _ _ _ _ _ _) as [[traces|] err];
      unfold handshake; cbn; now rewrite Hreg.
  - unfold handshake. cbn. now rewrite Hreg.
Qed.

Lemma update_indexes_keeps_handshake
  (frame_index trace_index : VALUE) (s : thread_vars) :
  handshake (snd (rb_scout_update_indexes frame_index trace_index s)) = handshake s.
Proof.
  unfold rb_scout_update_indexes. branches; reflexivity.
Qed.

Lemma stop_sampling_handshake
  (b : build) (rt : runtime) (reset : VALUE) (s : thread_vars) :
  let s' := snd (rb_scout_stop_sampling b rt reset s) in
  _thread_registered s' = _thread_registered s
  /\ _ok_to_sample s' = false
  /\ ((_job_registered s' = _job_registered s /\ skip_counters s' = skip_counters s)
      \/ (_job_registered s' = false /\ skip_counters s' = (0, 0, 0, 0)%N)).
Proof.
  cbv zeta. unfold rb_scout_stop_sampling, ATOMIC_LOAD.
  set (s1 := if _ok_to_sample s
             then if linux b then scout_stop_thread_timer b rt s else s
             else s).
  assert (H1 : s1 = s \/ s1 = set_timer_armed false s
               \/ s1 = log (Timer_set_failed (errno rt)) s).
  { subst s1. destruct (_ok_to_sample s), (linux b); auto.
    apply scout_stop_thread_timer_cases. }
  destruct (ruby_type_eqb (TYPE rt reset) T_TRUE); cbn [snd];
    destruct H1 as [-> | [-> | ->]]; cbn; auto.
Qed.

Lemma handler_keeps_registered (rt : runtime) (s : thread_vars) :
  _thread_registered (scout_profile_broadcast_signal_handler rt s)
  = _thread_registered s.
Proof.
  unfold scout_profile_broadcast_signal_handler. branches; reflexivity.
Qed.

Lemma record_sample_keeps_registered (b : build) (rt : runtime) (s : thread_vars) :
  _thread_registered (scout_record_sample b rt s) = _thread_registered s.
Proof.
  unfold scout_record_sample. branches; reflexivity.
Qed.

Lemma atfork_keeps_handshake (b : build) (rt : runtime) (s : thread_vars) :
  handshake (scout_parent_atfork_prepare b rt s) = handshake s
  /\ handshake (scout_parent_atfork_finish b rt s) = handshake s.
Proof.
  unfold scout_parent_atfork_prepare, scout_parent_atfork_finish, ATOMIC_LOAD.
  destruct (timers_keep_handshake b rt s) as [H1 H2].
  destruct (_ok_to_sample s); auto.
Qed.

(** No event makes a registered thread a thread that is not registered. *)
Lemma step_keeps_registered
  (b : build) (rt : runtime) (c : Stacks.call) (m : machine) :
  _thread_registered (thread m) = true ->
  _thread_registered (thread (step b rt c m)) = true.
Proof.
  destruct m as [g s]. cbn [thread]. intro H.
  destruct c; cbn [step on_globals on_thread thread globals]; try exact H.
  - apply add_profiled_thread_registers.
  - unfold rb_scout_remove_profiled_thread.
    destruct (proj2 (remove_profiled_thread_cases s) H) as (Hf & Hr & _).
    destruct (remove_profiled_thread s) as [[r|] s1]; cbn in *; [discriminate | exact Hr].
  - pose proof (profile_frames_keeps_handshake b rt s) as E.
    destruct (handshake_eq _ _ E) as (Hr & _). now rewrite Hr.
  - apply start_sampling_registers.
  - destruct (stop_sampling_handshake b rt reset s) as (Hr & _). now rewrite Hr.
  - pose proof (update_indexes_keeps_handshake frame_index trace_index s) as E.
    destruct (handshake_eq _ _ E) as (Hr & _). now rewrite Hr.
  - destruct (sigalrm_handler g); cbn [on_thread thread]; [|exact H].
    now rewrite handler_keeps_registered.
  - now rewrite record_sample_keeps_registered.
  - destruct (atfork_keeps_handshake b rt s) as [E _].
    destruct (handshake_eq _ _ E) as (Hr & _). now rewrite Hr.
  - destruct (atfork_keeps_handshake b rt s) as [_ E].
    destruct (handshake_eq _ _ E) as (Hr & _). now rewrite Hr.
Qed.

Lemma step_unused_until_registered
  (b : build) (rt : runtime) (c : Stacks.call) (m : machine) :
  unused_until_registered (thread m) ->
  unused_until_registered (thread (step b rt c m)).
Proof.
  intros Hinv Hreg'.
  assert (Hreg : _thread_registered (thread m) = false).
  { destruct (_thread_registered (thread m)) eqn:E; [|reflexivity].
    rewrite (step_keeps_registered b rt c m E) in Hreg'. discriminate. }
  destruct (Hinv Hreg) as (Hok & Hjob & Hsk).
  destruct m as [g s]. cbn [thread] in *.
  destruct c; cbn [step on_globals on_thread thread globals] in *; auto.
  - unfold rb_scout_add_profiled_thread in Hreg'. cbn [snd] in Hreg'.
    rewrite add_profiled_thread_registers in Hreg'. discriminate.
  - unfold rb_scout_remove_profiled_thread.
    rewrite (proj1 (remove_profiled_thread_cases s) Hreg). cbn. auto.
  - pose proof (profile_frames_keeps_handshake b rt s) as E.
    destruct (handshake_eq _ _ E) as (_ & Ho & Hj & Hs).
    rewrite Ho, Hj, Hs. auto.
  - rewrite start_sampling_registers in Hreg'. discriminate.
  - destruct (stop_sampling_handshake b rt reset s)
      as (_ & Ho & [[Hj Hs] | [Hj Hs]]).
    + rewrite Ho, Hj, Hs. auto.
    + rewrite Ho, Hj, Hs. auto.
  - pose proof (update_indexes_keeps_handshake frame_index trace_index s) as E.
    destruct (handshake_eq _ _ E) as (_ & Ho & Hj & Hs).
    rewrite Ho, Hj, Hs. auto.
  - destruct (sigalrm_handler g); cbn [on_thread thread]; [|auto].
    rewrite (handler_disabled rt s Hok). auto.
  - rewrite (scout_record_sample_disabled b rt s Hok). auto.
  - destruct (atfork_keeps_handshake b rt s) as [E _].
    destruct (handshake_eq _ _ E) as (_ & Ho & Hj & Hs).
    rewrite Ho, Hj, Hs. auto.
  - destruct (atfork_keeps_handshake b rt s) as [_ E].
    destruct (handshake_eq _ _ E) as (_ & Ho & Hj & Hs).
    rewrite Ho, Hj, Hs. auto.
Qed.

Lemma run_unused_until_registered (b : build) (l : list (runtime * Stacks.call)) :
  forall m : machine,
  unused_until_registered (thread m) ->
  unused_until_registered (thread (run b l m)).
Proof.
  induction l as [|[rt c] l IH]; intros m H; cbn [run]; [exact H|].
  apply IH. now apply step_unused_until_registered.
Qed.

(** C7.  A thread starts with the initial values of its variables and goes
    through any history of events.  Registering it then returns true.  If
    the thread is not registered at that point, then afterwards it is
    registered, [_ok_to_sample], [_in_signal_handler] and [_job_registered]
    are false, the two start indices, the number of traces and the four
    skip counters are 0, and [_ruby_thread] is the thread that runs.  If it
    is registered already, the state is as it was. *)
Theorem register_thread_zeroes
  (b : build) (mem : N -> c_trace) (l : list (runtime * Stacks.call))
  (rt : runtime) :
  let s := thread (run b l (machine_initial mem)) in
  let s' := snd (rb_scout_add_profiled_thread b rt s) in
  fst (rb_scout_add_profiled_thread b rt s) = Qtrue
  /\ (_thread_registered s = false ->
      _thread_registered s' = true
      /\ _ok_to_sample s' = false
      /\ _in_signal_handler s' = false
      /\ _job_registered s' = false
      /\ _start_frame_index s' = 0%N
      /\ _start_trace_index s' = 0%N
      /\ _cur_traces_num s' = 0%N
      /\ skip_counters s' = (0, 0, 0, 0)%N
      /\ _ruby_thread s' = rb_thread_current rt)
  /\ (_thread_registered s = true -> s' = s).
Proof.
  intros s s'. split; [reflexivity|].
  assert (Hinv : unused_until_registered s).
  { apply run_unused_until_registered. intros _. repeat split. }
  subst s'. unfold rb_scout_add_profiled_thread, scout_add_profiled_thread, ATOMIC_LOAD.
  split; intro Hreg; rewrite Hreg; [|reflexivity].
  cbn [snd]. destruct (Hinv Hreg) as (_ & Hjob & Hsk).
  destruct (init_thread_vars_fields b rt s)
    as (H1 & H2 & H3 & H4 & H5 & H6 & _ & H8 & H9).
  repeat split; try assumption.
  - change (_job_registered (init_thread_vars b rt s) = false). now rewrite H8.
  - change (skip_counters (init_thread_vars b rt s) = (0, 0, 0, 0)%N).
    now rewrite H9.
Qed.

Lemma register_thread_zeroes_witness :
  let s := thread (run glibc_x86_64
                     [(quiet [], Stacks.install);
                      (quiet (frames 10), Stacks.SIGALRM);
                      (collecting (frames 10), Stacks.postponed_job);
                      (quiet [], Stacks.update_indexes (Fixnum 3) (Fixnum 4));
                      (quiet [], Stacks.stop_sampling Qfalse)]
                     (machine_initial blank_memory)) in
  let s' := snd (rb_scout_add_profiled_thread glibc_x86_64 (quiet []) s) in
  _start_trace_index s = 4%N
  /\ _start_trace_index s' = 0%N
  /\ _job_registered s' = false
  /\ skip_counters s' = (0, 0, 0, 0)%N
  /\ _ruby_thread s' = main_thread.
Proof.
  intros s s'.
  destruct (register_thread_zeroes glibc_x86_64 blank_memory
              [(quiet [], Stacks.install);
               (quiet (frames 10), Stacks.SIGALRM);
               (collecting (frames 10), Stacks.postponed_job);
               (quiet [], Stacks.update_indexes (Fixnum 3) (Fixnum 4));
               (quiet [], Stacks.stop_sampling Qfalse)]
              (quiet [])) as (_ & H & _).
  destruct (H eq_refl) as (_ & _ & _ & Hj & _ & Hsti & _ & Hsk & Hth).
  split; [reflexivity|]. split; [exact Hsti|]. split; [exact Hj|].
  split; [exact Hsk | exact Hth].
Defined.

(** ** Removal *)



